(** * Elixir repository tools: a shallow embedding and its properties

    The repository is five Python scripts: a scanner
    (1_scan_repos.py), a list filter (2_filter_repos.py), two actions
    (action_check_uncommitted.py, action_placeholder.py) and a
    dispatcher (run.py).  Each script is embedded below as functions
    over an explicit [world]: the parent directory the scanner reads,
    the JSON files of the working directory, the answer of the
    version-control tool for each path, and the lines printed so far.

    Strings are byte strings (UTF-8); comparing them byte by byte is
    comparing them code point by code point, which is how Python
    orders [str] values.

    What the world leaves out: failures of the file system other than
    a missing file (an unreadable directory, a file that cannot be
    written), and the buffering of the standard output, whose lines
    are kept in program order, those of a child process included. *)

From Stdlib Require Import ZArith NArith List Ascii Sorting.Sorted.
From stdpp Require Import gmap strings list sorting pretty.

Local Set Warnings "-register-all".

(** ** Python values, outcomes and the world *)

Module Py.

(** The exception classes the scripts can meet; every one of them
    derives from [Exception].  [SystemExit] does not, and is an outcome
    of its own below. *)
Inductive exn_class :=
| FileNotFoundError
| NotADirectoryError
| PermissionError
| TimeoutExpired
| CalledProcessError
| JSONDecodeError
| AttributeError
| TypeError.

(** An exception: its class and [str(e)]. *)
Record exn := Exn { exn_cls : exn_class; exn_str : string }.

Global Instance exn_class_eq_dec : EqDecision exn_class.
Proof. solve_decision. Defined.

(** How a call ends: it returns, raises an exception that
    [except Exception] would catch, or raises [SystemExit(code)]. *)
Inductive outcome (A : Type) :=
| Return (a : A)
| Raise (e : exn)
| Exit (code : Z).
Arguments Return {A} a.
Arguments Raise {A} e.
Arguments Exit {A} code.

(** The JSON values of the model, as [json.load] returns them.  Arrays
    hold path strings (the data model of the lists); an object keeps
    its fields in insertion order, with pairwise distinct keys as in a
    Python [dict].  JSON strings and floats as values, and arrays of
    other things, are left out. *)
Inductive json :=
| JNull
| JBool (b : bool)
| JNum (n : Z)
| JArr (items : list string)
| JObj (fields : list (string * json)).

(** A file of the working directory, seen through [json.load]:
    either text the decoder rejects (with the decoder's message) or a
    document. *)
Inductive file :=
| Malformed (msg : string)
| Document (j : json).

(** An entry of a directory: a plain file, or a directory with its own
    entries.  A symbolic link counts as what it points to. *)
Inductive node :=
| File
| Dir (entries : gmap string node).

(** The result of [subprocess.run(["git", "status", "--porcelain"], ...)]:
    the captured standard output, decoded, as its sequence of Unicode
    code points (the unit [str.strip] works on), or the exception the
    call raised. *)
Inductive proc_result :=
| Completed (out : list N)
| Failed (e : exn).

Record world := World {
  parent_dir : string;            (* Path("..").resolve() *)
  siblings : gmap string node;    (* the entries of that directory *)
  files : gmap string file;       (* the JSON files of the working directory *)
  git_status : string → proc_result;  (* the status query, by cwd *)
  executable : string;            (* sys.executable *)
  stdout : list string            (* the lines printed, oldest first *)
}.

(** Computations: a world in, an outcome and a world out.  What was
    printed or written before an exception stays printed or written. *)
Definition M (A : Type) : Type := world → outcome A * world.

Definition ret {A} (a : A) : M A := λ w, (Return a, w).

Definition raise {A} (e : exn) : M A := λ w, (Raise e, w).

Definition sys_exit {A} (code : Z) : M A := λ w, (Exit code, w).

Definition bind {A B} (m : M A) (k : A → M B) : M B :=
  λ w, match m w with
       | (Return a, w') => k a w'
       | (Raise e, w') => (Raise e, w')
       | (Exit c, w') => (Exit c, w')
       end.

(** [try: m  except cls: h] *)
Definition try_except {A} (m : M A) (cls : exn_class) (h : exn → M A) : M A :=
  λ w, match m w with
       | (Raise e, w') => if decide (exn_cls e = cls) then h e w' else (Raise e, w')
       | r => r
       end.

(** [try: m  except Exception as e: h e] *)
Definition try_except_Exception {A} (m : M A) (h : exn → M A) : M A :=
  λ w, match m w with
       | (Raise e, w') => h e w'
       | r => r
       end.

(** A pure computation that may raise, run inside [M]. *)
Definition lift {A} (o : outcome A) : M A := λ w, (o, w).

Declare Scope py_scope.
Delimit Scope py_scope with py.
Notation "x <- m ;; k" := (bind m (λ x, k))
  (at level 100, m at next level, right associativity) : py_scope.
Notation "m ;; k" := (bind m (λ _, k))
  (at level 100, right associativity) : py_scope.
Local Open Scope py_scope.

(** The world after [lines] have been printed. *)
Definition printed (lines : list string) (w : world) : world :=
  World (parent_dir w) (siblings w) (files w) (git_status w)
        (executable w) (stdout w ++ lines).

Definition print (line : string) : M unit :=
  λ w, (Return tt, printed [line] w).

(** [with open(name, "w") as f: json.dump(doc, f, indent=2)] *)
Definition write_json (name : string) (doc : json) : M unit :=
  λ w, (Return tt,
        World (parent_dir w) (siblings w) (<[name := Document doc]> (files w))
              (git_status w) (executable w) (stdout w)).

(** [with open(name, "r") as f: data = json.load(f)] *)
Definition read_json (name : string) : M json :=
  λ w, match files w !! name with
       | None =>
           (Raise (Exn FileNotFoundError
                       ("[Errno 2] No such file or directory: '" +:+ name +:+ "'")), w)
       | Some (Malformed msg) => (Raise (Exn JSONDecodeError msg), w)
       | Some (Document j) => (Return j, w)
       end.

(** The status the interpreter exits with when the script body ends
    this way. *)
Definition exit_status {A} (o : outcome A) : Z :=
  match o with
  | Return _ => 0
  | Raise _ => 1
  | Exit c => c
  end.

(** [type(v).__name__] *)
Definition type_name (v : json) : string :=
  match v with
  | JNull => "NoneType"
  | JBool _ => "bool"
  | JNum _ => "int"
  | JArr _ => "list"
  | JObj _ => "dict"
  end.

(** [d.get(key)] on the fields of a dict. *)
Fixpoint dict_lookup (fields : list (string * json)) (key : string) : option json :=
  match fields with
  | [] => None
  | (k, v) :: rest => if decide (k = key) then Some v else dict_lookup rest key
  end.

(** [data.get(key, default)]: only a dict has the method. *)
Definition get (data : json) (key : string) (dflt : json) : outcome json :=
  match data with
  | JObj fields => Return (default dflt (dict_lookup fields key))
  | _ => Raise (Exn AttributeError
                    ("'" +:+ type_name data +:+ "' object has no attribute 'get'"))
  end.

(** [iter(v)]: a list yields its items, a dict its keys. *)
Definition iterate (v : json) : outcome (list string) :=
  match v with
  | JArr items => Return items
  | JObj fields => Return (fields.*1)
  | _ => Raise (Exn TypeError ("'" +:+ type_name v +:+ "' object is not iterable"))
  end.

(** [r in v] for a string [r]: list membership by [==], dict
    membership by key. *)
Definition contains (v : json) (r : string) : outcome bool :=
  match v with
  | JArr items => Return (bool_decide (r ∈ items))
  | JObj fields => Return (bool_decide (r ∈ fields.*1))
  | _ => Raise (Exn TypeError
                    ("argument of type '" +:+ type_name v +:+ "' is not iterable"))
  end.

(** [s.endswith(suffix)]: the last [len(suffix)] characters of [s]
    are [suffix]. *)
Definition endswith (s suffix : string) : bool :=
  let n := String.length s in
  let k := String.length suffix in
  (k <=? n)%nat && String.eqb (String.substring (n - k) k s) suffix.

(** [s.split("/")] *)
Fixpoint split_slash (s : string) : list string :=
  match s with
  | EmptyString => [EmptyString]
  | String c s' =>
      if Ascii.eqb c "/"%char then EmptyString :: split_slash s'
      else match split_slash s' with
           | seg :: rest => String c seg :: rest
           | [] => [String c EmptyString]
           end
  end.

(** [Path(s).name] on a POSIX system: the last component of the path,
    where empty components and ["."] are not components; the empty
    string when there is none. *)
Definition path_name (s : string) : string :=
  default "" (last (filter (λ seg, seg ≠ "" ∧ seg ≠ ".") (split_slash s))).

(** [str(Path(parent) / name)] for a resolved (absolute, normalised)
    [parent] and the name of one of its entries. *)
Definition path_join (parent name : string) : string :=
  if decide (parent = "/") then "/" +:+ name else parent +:+ "/" +:+ name.

(** [l.sort()] on a list of strings: the rearrangement of [l] that is
    ascending for the order of [str], lexicographic on code points
    ([String.le]).
    Python's sort is stable, which cannot be seen on strings: equal
    strings are the same string. *)
Definition sort (l : list string) : list string := merge_sort String.le l.

(** [c.isspace()] for a code point, the characters [str.strip()]
    removes: U+0009..U+000D, U+001C..U+0020, U+0085, U+00A0, U+1680,
    U+2000..U+200A, U+2028, U+2029, U+202F, U+205F, U+3000. *)
Definition isspace (c : N) : bool :=
  ((9 <=? c) && (c <=? 13) || (28 <=? c) && (c <=? 32)
   || (c =? 133) || (c =? 160) || (c =? 5760)
   || (8192 <=? c) && (c <=? 8202)
   || (c =? 8232) || (c =? 8233) || (c =? 8239) || (c =? 8287)
   || (c =? 12288))%N.

(** [s.lstrip()] *)
Fixpoint lstrip (s : list N) : list N :=
  match s with
  | c :: s' => if isspace c then lstrip s' else s
  | [] => []
  end.

(** [s.rstrip()] *)
Definition rstrip (s : list N) : list N := reverse (lstrip (reverse s)).

(** [s.strip()] *)
Definition strip (s : list N) : list N := rstrip (lstrip s).

End Py.

Import Py.
Local Open Scope py_scope.

(** ** 1_scan_repos.py *)

Module Scan.

(** [item.is_dir()] *)
Definition is_dir (item : node) : bool :=
  match item with
  | Dir _ => true
  | File => false
  end.

(** [(path / name).exists()] *)
Definition exists_in (item : node) (name : string) : bool :=
  match item with
  | Dir entries => bool_decide (is_Some (entries !! name))
  | File => false
  end.

Definition is_git_repo (path : node) : bool := exists_in path ".git".

Definition is_elixir_repo (path : node) : bool := exists_in path "mix.exs".

(** The loop of [scan_repos] over the entries [iterdir] yields, in the
    order it yields them. *)
Fixpoint scan_items (parent : string) (items : list (string * node)) : list string :=
  match items with
  | [] => []
  | (name, item) :: rest =>
      if is_dir item then
        if is_git_repo item && is_elixir_repo item
        then path_join parent name :: scan_items parent rest
        else scan_items parent rest
      else scan_items parent rest
  end.

(** [iterdir] yields the entries in an order of its own, here the one
    of [map_to_list]; the result is sorted afterwards. *)
Definition scan_repos : M (list string) :=
  λ w, (Return (sort (scan_items (parent_dir w) (map_to_list (siblings w)))), w).

(** [[r for r in repos if not r.endswith("DSPex")]] *)
Definition excluded (repos : list string) : list string :=
  filter (λ r, endswith r "DSPex" = false) repos.

Definition main : M unit :=
  repos <- scan_repos ;;
  write_json "repos.json" (JObj [("repos", JArr repos)]) ;;
  print ("Found " +:+ pretty (length repos) +:+ " Elixir git repositories") ;;
  print "Written to repos.json" ;;
  let excluded_repos := excluded repos in
  write_json "repos_exclude.json" (JObj [("repos", JArr excluded_repos)]) ;;
  print ("Created repos_exclude.json with DSPex removed ("
         +:+ pretty (length excluded_repos) +:+ " repos)").

End Scan.

(** ** 2_filter_repos.py *)

Module Filter.

Definition load_repos (filename : string) : M json :=
  try_except
    (data <- read_json filename ;;
     lift (get data "repos" (JArr [])))
    FileNotFoundError
    (λ _, print ("Error: " +:+ filename +:+ " not found. Run 1_scan_repos.py first.") ;;
          ret (JArr [])).

(** The body of [[r for r in main_repos if r not in exclude_repos]]
    once [main_repos] is being iterated. *)
Fixpoint subtract (items : list string) (exclude_repos : json) : outcome (list string) :=
  match items with
  | [] => Return []
  | r :: rest =>
      match contains exclude_repos r with
      | Return b =>
          match subtract rest exclude_repos with
          | Return out => Return (if b then out else r :: out)
          | Raise e => Raise e
          | Exit c => Exit c
          end
      | Raise e => Raise e
      | Exit c => Exit c
      end
  end.

Definition filter_repos : M (list string) :=
  main_repos <- load_repos "repos.json" ;;
  exclude_repos <- load_repos "repos_exclude.json" ;;
  items <- lift (iterate main_repos) ;;
  lift (subtract items exclude_repos).

(** [for repo in filtered: print(f"  - {repo}")] *)
Fixpoint print_items (l : list string) : M unit :=
  match l with
  | [] => ret tt
  | repo :: rest => print ("  - " +:+ repo) ;; print_items rest
  end.

Definition main : M unit :=
  filtered <- filter_repos ;;
  write_json "repos_filtered.json" (JObj [("repos", JArr filtered)]) ;;
  print ("Filtered repos: " +:+ pretty (length filtered)) ;;
  print_items filtered.

End Filter.

(** ** action_check_uncommitted.py *)

Module Uncommitted.

(** [subprocess.run(["git", "status", "--porcelain"], cwd=repo_path,
    capture_output=True, text=True, timeout=10)] *)
Definition run_git_status (repo_path : string) : M (list N) :=
  λ w, match git_status w repo_path with
       | Completed out => (Return out, w)
       | Failed e => (Raise e, w)
       end.

Definition check_uncommitted (repo_path : string) : M bool :=
  try_except_Exception
    (out <- run_git_status repo_path ;;
     ret (bool_decide (strip out ≠ [])))
    (λ e, print ("Error checking " +:+ repo_path +:+ ": " +:+ exn_str e) ;;
          ret false).

(** The first loop of [run]: one line per repository, the dirty ones
    collected in order. *)
Fixpoint check_all (repos : list string) (repos_with_changes : list string)
  : M (list string) :=
  match repos with
  | [] => ret repos_with_changes
  | repo :: rest =>
      let repo_name := path_name repo in
      dirty <- check_uncommitted repo ;;
      if dirty then
        print ("✗ " +:+ repo_name +:+ " - has uncommitted changes") ;;
        check_all rest (repos_with_changes ++ [repo])
      else
        print ("✓ " +:+ repo_name +:+ " - clean") ;;
        check_all rest repos_with_changes
  end.

Definition run (repos : json) : M unit :=
  items <- lift (iterate repos) ;;
  repos_with_changes <- check_all items [] ;;
  print "" ;;
  match repos_with_changes with
  | _ :: _ =>
      print ("Repos with uncommitted work ("
             +:+ pretty (length repos_with_changes) +:+ "):") ;;
      Filter.print_items repos_with_changes
  | [] => print "All repos are clean!"
  end.

(** The script run on its own ([__name__ == "__main__"]). *)
Definition script : M unit :=
  repos <- try_except
             (data <- read_json "repos_filtered.json" ;;
              lift (get data "repos" (JArr [])))
             FileNotFoundError
             (λ _, print "Error: repos_filtered.json not found. Run filter script first." ;;
                   sys_exit 1) ;;
  run repos.

End Uncommitted.

(** ** action_placeholder.py *)

Module Placeholder.

Fixpoint process_all (repos : list string) : M unit :=
  match repos with
  | [] => ret tt
  | repo :: rest =>
      let repo_name := path_name repo in
      print ("  Processing: " +:+ repo_name) ;;
      process_all rest
  end.

Definition run (repos : json) : M unit :=
  print "Running placeholder action..." ;;
  items <- lift (iterate repos) ;;
  process_all items.

(** The script run on its own ([__name__ == "__main__"]). *)
Definition script : M unit :=
  repos <- try_except
             (data <- read_json "repos_filtered.json" ;;
              lift (get data "repos" (JArr [])))
             FileNotFoundError
             (λ _, print "Error: repos_filtered.json not found. Run filter script first." ;;
                   sys_exit 1) ;;
  run repos.

End Placeholder.

(** ** run.py *)

Module Runner.

(** The scripts [run_script] is called with.  The child process shares
    the working directory and the terminal of its parent. *)
Definition script_body (script_name : string) : option (M unit) :=
  if decide (script_name = "1_scan_repos.py") then Some Scan.main
  else if decide (script_name = "2_filter_repos.py") then Some Filter.main
  else None.

(** [subprocess.run([sys.executable, script_name], check=True)]: the
    child's exit status, turned into [CalledProcessError] when it is not
    zero.  A script the interpreter cannot open ends it with status 2.
    The text of the exception shows the command as Python prints a list
    of strings; it is written here with single quotes around each, which
    is what [repr] gives for a path of printable ASCII characters
    without quote or backslash, and is not the text for other paths. *)
Definition run_child (script_name : string) : M unit :=
  λ w,
    let '(status, w') :=
      match script_body script_name with
      | Some body => let '(o, w') := body w in (exit_status o, w')
      | None => (2%Z, w)
      end in
    if decide (status = 0%Z) then (Return tt, w')
    else (Raise (Exn CalledProcessError
                     ("Command '['" +:+ executable w +:+ "', '" +:+ script_name
                      +:+ "']' returned non-zero exit status " +:+ pretty status +:+ ".")),
          w').

Definition run_script (script_name : string) : M bool :=
  try_except
    (run_child script_name ;; ret true)
    CalledProcessError
    (λ e, print ("Error running " +:+ script_name +:+ ": " +:+ exn_str e) ;;
          ret false).

(** The first three lines of the [try] body of [run_action]. *)
Definition load_filtered : M json :=
  data <- read_json "repos_filtered.json" ;;
  lift (get data "repos" (JArr [])).

(** Loading the action module from its file and calling its [run],
    for the two action files the dispatcher names.  The bytecode cache
    the import leaves beside the file is not part of the world, and the
    last branch stands for a file that is not there; other names are
    not followed. *)
Definition module_run (action_module : string) (repos : json) : M unit :=
  if decide (action_module = "action_check_uncommitted.py") then Uncommitted.run repos
  else if decide (action_module = "action_placeholder.py") then Placeholder.run repos
  else raise (Exn FileNotFoundError
                  ("[Errno 2] No such file or directory: '" +:+ action_module +:+ "'")).

(** [run_action] returns [None] when the action ran and [False] when
    something went wrong.  The two [except] clauses are tried in order
    on what the [try] body raises. *)
Definition run_action (action_module : string) : M (option bool) :=
  try_except_Exception
    (repos <- load_filtered ;;
     module_run action_module repos ;;
     ret None)
    (λ e, if decide (exn_cls e = FileNotFoundError) then
            print "Error: repos_filtered.json not found. Run setup first." ;;
            ret (Some false)
          else
            print ("Error running action: " +:+ exn_str e) ;;
            ret (Some false)).

Definition usage : list string :=
  [ "Elixir Repo Management Tool";
    "";
    "Usage:";
    "  python run.py scan          - Scan for Elixir repos and create configs";
    "  python run.py filter        - Filter repos (main - excludes)";
    "  python run.py uncommitted   - Check for uncommitted work";
    "  python run.py placeholder   - Run placeholder action";
    "  python run.py setup         - Run scan + filter";
    "" ].

Fixpoint print_lines (l : list string) : M unit :=
  match l with
  | [] => ret tt
  | line :: rest => print line ;; print_lines rest
  end.

(** [main()], with [sys.argv] as its argument: [len(sys.argv) < 2] is
    the second branch of the match, [sys.argv[1]] is [command]. *)
Definition main (argv : list string) : M unit :=
  match argv with
  | _ :: command :: _ =>
      if decide (command = "scan") then
        print "=== Scanning for Elixir repos ===" ;;
        run_script "1_scan_repos.py" ;; ret tt
      else if decide (command = "filter") then
        print "=== Filtering repos ===" ;;
        run_script "2_filter_repos.py" ;; ret tt
      else if decide (command = "setup") then
        print "=== Running setup (scan + filter) ===" ;;
        ok <- run_script "1_scan_repos.py" ;;
        if ok : bool then
          print "" ;;
          run_script "2_filter_repos.py" ;; ret tt
        else ret tt
      else if decide (command = "uncommitted") then
        print "=== Checking for uncommitted work ===" ;;
        run_action "action_check_uncommitted.py" ;; ret tt
      else if decide (command = "placeholder") then
        print "=== Running placeholder action ===" ;;
        run_action "action_placeholder.py" ;; ret tt
      else
        print ("Unknown command: " +:+ command) ;;
        sys_exit 1
  | _ => print_lines usage
  end.

(** The exit status of [python run.py ...] started in world [w]. *)
Definition exit_code (argv : list string) (w : world) : Z :=
  exit_status (main argv w).1.

End Runner.

(** ** Sample worlds *)

Module Samples.

(** A directory that is both a git repository and an Elixir project. *)
Definition elixir_repo : gmap string node :=
  {[ ".git" := Dir ∅; "mix.exs" := File ]}.

(** The status query: pending changes in DSPex (the line " M a"), a
    timeout in zeta, a lone newline everywhere else. *)
Definition sample_git (repo_path : string) : proc_result :=
  if decide (repo_path = "/home/u/DSPex") then Completed [32; 77; 32; 97; 10]%N
  else if decide (repo_path = "/home/u/zeta") then
    Failed (Exn TimeoutExpired
                "Command '['git', 'status', '--porcelain']' timed out after 10 seconds")
  else Completed [10]%N.

(** A parent directory /home/u with three Elixir repositories, a
    plain file, a git repository that is no Elixir project, and no
    JSON file written yet. *)
Definition fresh : world :=
  World "/home/u"
        {[ "zeta" := Dir elixir_repo;
           "DSPex" := Dir elixir_repo;
           "MyDSPex" := Dir elixir_repo;
           "notes.txt" := File;
           "tools" := Dir {[ ".git" := Dir ∅ ]} ]}
        ∅ sample_git "/usr/bin/python3" [].

(** The same after [1_scan_repos.py] has run. *)
Definition scanned : world := (Scan.main fresh).2.

(** A working directory whose two lists were written by hand. *)
Definition by_hand : world :=
  World "/home/u" ∅
        {[ "repos.json" := Document (JObj [("repos", JArr ["/r/a"; "/r/b"; "/r/c"])]);
           "repos_exclude.json" := Document (JObj [("repos", JArr ["/r/b"])]) ]}
        sample_git "/usr/bin/python3" [].

(** A filtered list written without its "repos" field. *)
Definition no_field : world :=
  World "/home/u" ∅
        {[ "repos_filtered.json" := Document (JObj [("version", JNum 1)]) ]}
        sample_git "/usr/bin/python3" [].

End Samples.

(** ** What the actions print, in closed form *)

Module Report.

(** A string without ["/"], as the name of a directory entry is. *)
Fixpoint no_slash (s : string) : bool :=
  match s with
  | EmptyString => true
  | String c s' => negb (Ascii.eqb c "/"%char) && no_slash s'
  end.

(** The answer of [check_uncommitted] for [repo] in world [w]: the
    status output has something left once stripped; a query that
    raised counts as clean. *)
Definition dirty (w : world) (repo : string) : bool :=
  match git_status w repo with
  | Completed out => bool_decide (strip out ≠ [])
  | Failed _ => false
  end.

(** The line [check_uncommitted] prints for [repo]: none, or the
    diagnostic of the query that raised. *)
Definition diagnostic (w : world) (repo : string) : list string :=
  match git_status w repo with
  | Completed _ => []
  | Failed e => ["Error checking " +:+ repo +:+ ": " +:+ exn_str e]
  end.

(** The lines the loop of [run] prints for [repo]. *)
Definition status_lines (w : world) (repo : string) : list string :=
  diagnostic w repo ++
  [if dirty w repo
   then "✗ " +:+ path_name repo +:+ " - has uncommitted changes"
   else "✓ " +:+ path_name repo +:+ " - clean"].

(** The lines [run] ends with, given the repositories found dirty. *)
Definition summary (repos_with_changes : list string) : list string :=
  "" ::
  match repos_with_changes with
  | [] => ["All repos are clean!"]
  | _ :: _ =>
      ("Repos with uncommitted work ("
       +:+ pretty (length repos_with_changes) +:+ "):")
      :: ((λ repo, "  - " +:+ repo) <$> repos_with_changes)
  end.

(** The five commands of the dispatcher. *)
Definition commands : list string :=
  ["scan"; "filter"; "setup"; "uncommitted"; "placeholder"].

End Report.

(** ** More sample worlds *)

Module Cases.

(** repos.json is not JSON; the exclude list is fine. *)
Definition broken_main : world :=
  World "/home/u" ∅
        {[ "repos.json" := Malformed "Expecting value: line 1 column 1 (char 0)";
           "repos_exclude.json" := Document (JObj [("repos", JArr ["/r/b"])]) ]}
        Samples.sample_git "/usr/bin/python3" [].

(** The exclude list holds null where the list should be. *)
Definition null_exclude : world :=
  World "/home/u" ∅
        {[ "repos.json" := Document (JObj [("repos", JArr ["/r/a"])]);
           "repos_exclude.json" := Document (JObj [("repos", JNull)]) ]}
        Samples.sample_git "/usr/bin/python3" [].

(** The filtered list holds null where the list should be. *)
Definition null_filtered : world :=
  World "/home/u" ∅
        {[ "repos_filtered.json" := Document (JObj [("repos", JNull)]) ]}
        Samples.sample_git "/usr/bin/python3" [].

(** A filtered list of three repositories: one dirty, one whose query
    times out, one clean. *)
Definition three_repos : world :=
  World "/home/u" ∅
        {[ "repos_filtered.json" :=
             Document (JObj [("repos", JArr ["/home/u/DSPex"; "/home/u/zeta";
                                              "/home/u/MyDSPex"])]) ]}
        Samples.sample_git "/usr/bin/python3" [].

End Cases.

(** ** What the scripts meet outside the repository *)

Module Porcelain.

(** One entry of the short format of [git status --porcelain], as
    git's documentation gives it: two status characters XY (index and
    working tree), a space, the path, a newline.  An entry is listed
    because something is pending for the path, so X and Y are not both
    blank: at least one is a status letter (M, A, D, R, C, U, T, ?,
    !). *)
Record entry := Entry {
  index_state : N;
  tree_state : N;
  entry_path : list N
}.

Definition well_formed (e : entry) : bool :=
  negb (isspace (index_state e) && isspace (tree_state e)).

Definition line (e : entry) : list N :=
  index_state e :: tree_state e :: 32%N :: entry_path e ++ [10%N].

(** The whole output: one line per entry, nothing for a clean tree. *)
Definition output (entries : list entry) : list N :=
  concat (line <$> entries).

(** A string [repr] only puts single quotes around: printable ASCII
    characters, no quote and no backslash among them. *)
Fixpoint plain (s : string) : bool :=
  match s with
  | EmptyString => true
  | String c s' =>
      let n := N_of_ascii c in
      (32 <=? n)%N && (n <=? 126)%N && negb (n =? 39)%N && negb (n =? 92)%N
      && plain s'
  end.

End Porcelain.

(** * Properties *)

(** ** Unfolding the computations *)

Ltac run_py :=
  unfold Filter.load_repos, Runner.load_filtered, Uncommitted.run_git_status,
    try_except, try_except_Exception, bind, lift, ret, raise, sys_exit,
    read_json, write_json, print, printed in *;
  simpl in *.

(** ** The built-ins on examples *)

Example endswith_examples :
  endswith "/home/u/DSPex" "DSPex" = true ∧
  endswith "/home/u/MyDSPex" "DSPex" = true ∧
  endswith "/home/u/DSPex/" "DSPex" = false ∧
  endswith "Pex" "DSPex" = false ∧
  endswith "zeta" "" = true.
Proof. vm_compute. auto. Qed.

Example path_name_examples :
  path_name <$> ["/home/u/DSPex"; "/a/b/"; "/"; ""; "a"; "a/./b/."; "/a/.."; "//x"]
  = ["DSPex"; "b"; ""; ""; "a"; "b"; ".."; "x"].
Proof. vm_compute. reflexivity. Qed.

Example strip_examples :
  strip [32; 10; 77; 32; 97; 10]%N = [77; 32; 97]%N ∧ strip [10; 32; 9]%N = [].
Proof. vm_compute. auto. Qed.

Example sort_example :
  sort ["/p/b"; "/p/a"; "/p/a/c"; "/p/Z"] = ["/p/Z"; "/p/a"; "/p/a/c"; "/p/b"].
Proof. vm_compute. reflexivity. Qed.

(** The dispatcher's [setup] on the sample world: the three files and
    the lines printed. *)
Example setup_example :
  let '(o, w) := Runner.main ["run.py"; "setup"] Samples.fresh in
  o = Return tt ∧
  files w !! "repos.json"
    = Some (Document (JObj [("repos", JArr ["/home/u/DSPex"; "/home/u/MyDSPex";
                                             "/home/u/zeta"])])) ∧
  files w !! "repos_exclude.json"
    = Some (Document (JObj [("repos", JArr ["/home/u/zeta"])])) ∧
  files w !! "repos_filtered.json"
    = Some (Document (JObj [("repos", JArr ["/home/u/DSPex"; "/home/u/MyDSPex"])])) ∧
  stdout w = [ "=== Running setup (scan + filter) ===";
               "Found 3 Elixir git repositories";
               "Written to repos.json";
               "Created repos_exclude.json with DSPex removed (1 repos)";
               "";
               "Filtered repos: 2";
               "  - /home/u/DSPex";
               "  - /home/u/MyDSPex" ].
Proof. vm_compute. auto 6. Qed.

(** ** Sorting and sublists *)

Section sorted_lists.

Lemma sort_sorted (l : list string) : StronglySorted String.le (sort l).
Proof. unfold sort. apply StronglySorted_merge_sort; apply _. Qed.

Lemma elem_of_sort (l : list string) (x : string) : x ∈ sort l ↔ x ∈ l.
Proof. unfold sort. by rewrite merge_sort_Permutation. Qed.

(** Any sorting algorithm gives the same list: a sorted rearrangement
    of [l] is [sort l]. *)
Lemma sort_unique (l k : list string) :
  k ≡ₚ l → StronglySorted String.le k → k = sort l.
Proof.
  intros Hperm Hk. apply (StronglySorted_unique String.le); [done|apply sort_sorted|].
  unfold sort. by rewrite merge_sort_Permutation.
Qed.

Lemma StronglySorted_sublist {A} (R : relation A) (l k : list A) :
  l `sublist_of` k → StronglySorted R k → StronglySorted R l.
Proof.
  induction 1 as [|x l k Hlk IH|x l k Hlk IH]; intros Hk.
  - constructor.
  - apply StronglySorted_inv in Hk as [Hk Hx].
    constructor; [by apply IH|].
    rewrite Forall_forall in Hx |- *. intros y Hy.
    apply Hx. by apply (sublist_subseteq _ _ Hlk).
  - apply StronglySorted_inv in Hk as [Hk _]. by apply IH.
Qed.

Lemma filter_sorted (P : string → Prop) `{!∀ x, Decision (P x)} (l : list string) :
  StronglySorted String.le l → StronglySorted String.le (filter P l).
Proof. apply StronglySorted_sublist, sublist_filter. Qed.

End sorted_lists.

(** ** Paths *)

Lemma path_join_inj (parent n1 n2 : string) :
  path_join parent n1 = path_join parent n2 → n1 = n2.
Proof.
  unfold path_join. case_decide; intros Heq.
  - by apply (inj (String.app "/")) in Heq.
  - apply (inj (String.app parent)) in Heq. by apply (inj (String.app "/")) in Heq.
Qed.

(** ** The scanner's loop *)

Lemma elem_of_scan_items (parent : string) (items : list (string * node)) (p : string) :
  p ∈ Scan.scan_items parent items ↔
  ∃ name entries, (name, Dir entries) ∈ items ∧ p = path_join parent name ∧
                  is_Some (entries !! ".git") ∧ is_Some (entries !! "mix.exs").
Proof.
  induction items as [|[name item] rest IH]; simpl.
  - split; [by intros ?%elem_of_nil|]. by intros (? & ? & ?%elem_of_nil & _).
  - destruct item as [|entries]; simpl.
    + rewrite IH. split.
      * intros (n & e & Hin & ?). exists n, e. split; [by right|done].
      * intros (n & e & Hin & ?). exists n, e.
        apply elem_of_cons in Hin as [Heq|Hin]; [done|]. by split.
    + assert (Hboth : (bool_decide (is_Some (entries !! ".git"))
                       && bool_decide (is_Some (entries !! "mix.exs"))) = true
                      ↔ is_Some (entries !! ".git") ∧ is_Some (entries !! "mix.exs")).
      { rewrite andb_true_iff, !bool_decide_eq_true. done. }
      destruct (bool_decide (is_Some (entries !! ".git"))
                && bool_decide (is_Some (entries !! "mix.exs"))) eqn:Hb.
      * rewrite elem_of_cons, IH. split.
        -- intros [->|(n & e & Hin & ?)].
           ++ exists name, entries. split; [by left|]. split; [done|]. by apply Hboth.
           ++ exists n, e. split; [by right|done].
        -- intros (n & e & Hin & -> & Hm).
           apply elem_of_cons in Hin as [Heq|Hin].
           ++ left. by simplify_eq.
           ++ right. by exists n, e.
      * rewrite IH. split.
        -- intros (n & e & Hin & ?). exists n, e. split; [by right|done].
        -- intros (n & e & Hin & -> & Hm).
           apply elem_of_cons in Hin as [Heq|Hin].
           ++ simplify_eq. apply Hboth in Hm. congruence.
           ++ by exists n, e.
Qed.

(** The order in which [iterdir] yields the entries cannot be seen in
    the result. *)
Lemma scan_items_Permutation (parent : string) (items items' : list (string * node)) :
  items ≡ₚ items' → Scan.scan_items parent items ≡ₚ Scan.scan_items parent items'.
Proof.
  induction 1 as [|[n x] l l' _ IH|[n x] [m y] l|l l' l'' _ IH1 _ IH2]; simpl.
  - done.
  - destruct (Scan.is_dir x), (Scan.is_git_repo x && Scan.is_elixir_repo x);
      by rewrite ?IH.
  - destruct (Scan.is_dir x), (Scan.is_git_repo x && Scan.is_elixir_repo x),
      (Scan.is_dir y), (Scan.is_git_repo y && Scan.is_elixir_repo y);
      try done; apply perm_swap.
  - by etrans.
Qed.

(** X2. Whatever order the entries of the parent directory are listed
    in, the scanner's sorted result is the same list. *)
Lemma scan_order_irrelevant (w : world) (items : list (string * node)) :
  items ≡ₚ map_to_list (siblings w) →
  sort (Scan.scan_items (parent_dir w) items)
  = sort (Scan.scan_items (parent_dir w) (map_to_list (siblings w))).
Proof.
  intros Hperm. apply sort_unique; [|apply sort_sorted].
  unfold sort. rewrite merge_sort_Permutation. by apply scan_items_Permutation.
Qed.

Lemma elem_of_scan (w : world) (p : string) :
  p ∈ sort (Scan.scan_items (parent_dir w) (map_to_list (siblings w))) ↔
  ∃ name entries, siblings w !! name = Some (Dir entries) ∧
                  p = path_join (parent_dir w) name ∧
                  is_Some (entries !! ".git") ∧ is_Some (entries !! "mix.exs").
Proof.
  rewrite elem_of_sort, elem_of_scan_items.
  by setoid_rewrite elem_of_map_to_list.
Qed.

(** What [1_scan_repos.py] leaves behind: two files written, three
    lines printed. *)
Lemma scan_main_eq (w : world) :
  let repos := sort (Scan.scan_items (parent_dir w) (map_to_list (siblings w))) in
  Scan.main w =
  (Return tt,
   World (parent_dir w) (siblings w)
         (<["repos_exclude.json" := Document (JObj [("repos", JArr (Scan.excluded repos))])]>
            (<["repos.json" := Document (JObj [("repos", JArr repos)])]> (files w)))
         (git_status w) (executable w)
         (((stdout w
            ++ ["Found " +:+ pretty (length repos) +:+ " Elixir git repositories"])
            ++ ["Written to repos.json"])
            ++ ["Created repos_exclude.json with DSPex removed ("
                +:+ pretty (length (Scan.excluded repos)) +:+ " repos)"])).
Proof. reflexivity. Qed.

(** C3. For any parent directory, the scanner's result includes an
    immediate subdirectory if and only if that subdirectory contains
    both the version-control marker [".git"] and the project-type
    marker file ["mix.exs"]; and the result holds nothing but immediate
    subdirectories. *)
Theorem scan_repos_includes_iff (w : world) (name : string) (entries : gmap string node) :
  siblings w !! name = Some (Dir entries) →
  ∃ repos,
    Scan.scan_repos w = (Return repos, w) ∧
    (path_join (parent_dir w) name ∈ repos ↔
       is_Some (entries !! ".git") ∧ is_Some (entries !! "mix.exs")) ∧
    (∀ p, p ∈ repos →
       ∃ name' entries', siblings w !! name' = Some (Dir entries') ∧
                         p = path_join (parent_dir w) name').
Proof.
  intros Hname. eexists. split; [reflexivity|]. split.
  - rewrite elem_of_scan. split.
    + intros (n & e & Hn & Heq & Hm).
      apply path_join_inj in Heq as <-. by simplify_eq.
    + intros Hm. by exists name, entries.
  - intros p (n & e & Hn & Heq & _)%elem_of_scan. by exists n, e.
Qed.

(** C7. The scanner's output list is sorted: for every filesystem
    state, the list of matching paths it returns, which is the list
    [main] persists in repos.json, is in ascending lexicographic
    order. *)
Theorem scan_repos_sorted (w : world) :
  ∃ repos,
    Scan.scan_repos w = (Return repos, w) ∧
    StronglySorted String.le repos ∧
    files (Scan.main w).2 !! "repos.json"
      = Some (Document (JObj [("repos", JArr repos)])).
Proof.
  eexists. split; [reflexivity|]. split; [apply sort_sorted|].
  rewrite scan_main_eq. simpl.
  rewrite lookup_insert_ne by done. by rewrite lookup_insert_eq.
Qed.

Lemma scan_repos_includes_iff_witness :
  ∃ repos,
    Scan.scan_repos Samples.fresh = (Return repos, Samples.fresh) ∧
    (path_join (parent_dir Samples.fresh) "zeta" ∈ repos ↔
       is_Some (Samples.elixir_repo !! ".git") ∧
       is_Some (Samples.elixir_repo !! "mix.exs")) ∧
    (∀ p, p ∈ repos →
       ∃ name' entries', siblings Samples.fresh !! name' = Some (Dir entries') ∧
                         p = path_join (parent_dir Samples.fresh) name').
Proof.
  apply (scan_repos_includes_iff Samples.fresh "zeta" Samples.elixir_repo).
  vm_compute. reflexivity.
Defined.

(** ** The filter's comprehension *)

Lemma filter_ext_elem_of {A} (P Q : A → Prop)
    `{!∀ x, Decision (P x)} `{!∀ x, Decision (Q x)} (l : list A) :
  (∀ x, x ∈ l → (P x ↔ Q x)) → filter P l = filter Q l.
Proof.
  induction l as [|a l IH]; intros Hl; [done|].
  rewrite !filter_cons.
  assert (Ha : P a ↔ Q a) by (apply Hl; left).
  rewrite IH by (intros x Hx; apply Hl; by right).
  destruct (decide (P a)), (decide (Q a)); tauto.
Qed.

(** Against a list, the comprehension is a filter and never raises. *)
Lemma subtract_list (items B : list string) :
  Filter.subtract items (JArr B) = Return (filter (λ r, r ∉ B) items).
Proof.
  induction items as [|r rest IH]; simpl; [done|].
  rewrite IH, filter_cons.
  destruct (decide (r ∉ B)) as [Hr|Hr].
  - by rewrite bool_decide_eq_false_2.
  - rewrite bool_decide_eq_true_2; [done|]. by apply dec_stable.
Qed.

(** Whatever it is subtracted, what the comprehension returns is a
    sublist of what it iterates. *)
Lemma subtract_sublist (items : list string) (exclude_repos : json) (out : list string) :
  Filter.subtract items exclude_repos = Return out → out `sublist_of` items.
Proof.
  revert out. induction items as [|r rest IH]; simpl; intros out H.
  - by simplify_eq.
  - destruct (contains exclude_repos r) as [b|e|c]; [|done..].
    destruct (Filter.subtract rest exclude_repos) as [out'|e|c]; [|done..].
    simplify_eq. destruct b.
    + apply sublist_cons. by apply IH.
    + apply sublist_skip. by apply IH.
Qed.

(** Loading a list as the scripts persist it. *)
Lemma load_repos_list (w : world) (filename : string) (L : list string) :
  files w !! filename = Some (Document (JObj [("repos", JArr L)])) →
  Filter.load_repos filename w = (Return (JArr L), w).
Proof. intros H. run_py. by rewrite H. Qed.

Lemma load_repos_missing (w : world) (filename : string) :
  files w !! filename = None →
  Filter.load_repos filename w =
  (Return (JArr []),
   printed ["Error: " +:+ filename +:+ " not found. Run 1_scan_repos.py first."] w).
Proof. intros H. run_py. by rewrite H. Qed.

Lemma filter_repos_lists (w : world) (A B : list string) :
  files w !! "repos.json" = Some (Document (JObj [("repos", JArr A)])) →
  files w !! "repos_exclude.json" = Some (Document (JObj [("repos", JArr B)])) →
  Filter.filter_repos w = (Return (filter (λ r, r ∉ B) A), w).
Proof.
  intros HA HB. unfold Filter.filter_repos, bind.
  rewrite (load_repos_list w _ A HA), (load_repos_list w _ B HB).
  unfold lift. simpl. by rewrite subtract_list.
Qed.

(** C2. For every pair of lists A and B, the filter step's output
    contains an entry if and only if that entry occurs in A and does
    not occur in B, and the output preserves the order of A: it is A
    with the entries that occur in B left out.  In particular, for
    A = [p1, p2, p3] and B = [p2] (three different entries), the output
    is [p1, p3]. *)
Theorem filter_repos_difference (w : world) (A B : list string) :
  files w !! "repos.json" = Some (Document (JObj [("repos", JArr A)])) →
  files w !! "repos_exclude.json" = Some (Document (JObj [("repos", JArr B)])) →
  ∃ out,
    Filter.filter_repos w = (Return out, w) ∧
    (∀ x, x ∈ out ↔ x ∈ A ∧ x ∉ B) ∧
    out `sublist_of` A ∧
    out = filter (λ r, r ∉ B) A ∧
    (∀ p1 p2 p3, A = [p1; p2; p3] → B = [p2] → p1 ≠ p2 → p3 ≠ p2 →
                 out = [p1; p3]).
Proof.
  intros HA HB. eexists. split; [by apply filter_repos_lists|].
  split; [|split; [|split]].
  - intros x. rewrite list_elem_of_filter. tauto.
  - apply sublist_filter.
  - done.
  - intros p1 p2 p3 -> -> H1 H3.
    assert (Hp1 : p1 ∉ [p2]) by (by rewrite list_elem_of_singleton).
    assert (Hp2 : ¬ (p2 ∉ [p2])) by (intros Hn; apply Hn; left).
    assert (Hp3 : p3 ∉ [p2]) by (by rewrite list_elem_of_singleton).
    rewrite (filter_cons_True _ p1) by done.
    rewrite (filter_cons_False _ p2) by done.
    by rewrite (filter_cons_True _ p3) by done.
Qed.

Lemma filter_repos_difference_witness :
  ∃ out,
    Filter.filter_repos Samples.by_hand = (Return out, Samples.by_hand) ∧
    (∀ x, x ∈ out ↔ x ∈ ["/r/a"; "/r/b"; "/r/c"] ∧ x ∉ ["/r/b"]) ∧
    out `sublist_of` ["/r/a"; "/r/b"; "/r/c"] ∧
    out = filter (λ r, r ∉ ["/r/b"]) ["/r/a"; "/r/b"; "/r/c"] ∧
    (∀ p1 p2 p3, ["/r/a"; "/r/b"; "/r/c"] = [p1; p2; p3] → ["/r/b"] = [p2] →
                 p1 ≠ p2 → p3 ≠ p2 → out = [p1; p3]).
Proof.
  apply (filter_repos_difference Samples.by_hand ["/r/a"; "/r/b"; "/r/c"] ["/r/b"]);
    vm_compute; reflexivity.
Defined.

(** ** Printing *)

Lemma printed_printed (a b : list string) (w : world) :
  printed b (printed a w) = printed (a ++ b) w.
Proof. unfold printed. simpl. by rewrite app_assoc. Qed.

Lemma printed_nil (w : world) : printed [] w = w.
Proof. destruct w. unfold printed. simpl. by rewrite app_nil_r. Qed.

Lemma print_items_eq (l : list string) (w : world) :
  Filter.print_items l w = (Return tt, printed ((λ repo, "  - " +:+ repo) <$> l) w).
Proof.
  revert w. induction l as [|repo rest IH]; intros w; simpl.
  - unfold ret. by rewrite printed_nil.
  - unfold bind, print. rewrite IH. by rewrite printed_printed.
Qed.

(** The filter script returns whenever [filter_repos] does: it writes
    the list and prints it. *)
Lemma filter_main_eq (w w' : world) (out : list string) :
  Filter.filter_repos w = (Return out, w') →
  Filter.main w =
  (Return tt,
   printed (("Filtered repos: " +:+ pretty (length out)) :: ((λ repo, "  - " +:+ repo) <$> out))
     (World (parent_dir w') (siblings w')
            (<["repos_filtered.json" := Document (JObj [("repos", JArr out)])]> (files w'))
            (git_status w') (executable w') (stdout w'))).
Proof.
  intros H. unfold Filter.main, bind. rewrite H.
  unfold write_json, print. rewrite print_items_eq. by rewrite printed_printed.
Qed.

(** C10. Loading a repository list from a JSON file that exists and
    parses to an object with no "repos" field returns the empty list,
    the default of [data.get]: so does [load_repos] of the filter, and
    so does [run_action] of the dispatcher, whose action then runs on
    the empty list. *)
Theorem load_repos_default (w : world) (filename : string) (fields : list (string * json)) :
  files w !! filename = Some (Document (JObj fields)) →
  dict_lookup fields "repos" = None →
  Filter.load_repos filename w = (Return (JArr []), w) ∧
  (filename = "repos_filtered.json" →
   Runner.load_filtered w = (Return (JArr []), w) ∧
   Runner.run_action "action_placeholder.py" w
     = (Return None, printed ["Running placeholder action..."] w) ∧
   Runner.run_action "action_check_uncommitted.py" w
     = (Return None, printed [""; "All repos are clean!"] w)).
Proof.
  intros Hfile Hnone. split.
  - run_py. rewrite Hfile. simpl. by rewrite Hnone.
  - intros ->.
    assert (Hload : Runner.load_filtered w = (Return (JArr []), w)).
    { run_py. rewrite Hfile. simpl. by rewrite Hnone. }
    split; [done|]. split.
    + unfold Runner.run_action, try_except_Exception, bind. by rewrite Hload.
    + unfold Runner.run_action, try_except_Exception, bind. rewrite Hload.
      simpl. unfold Uncommitted.run, bind, lift, ret, print. simpl.
      by rewrite printed_printed.
Qed.

Lemma load_repos_default_witness :
  Filter.load_repos "repos_filtered.json" Samples.no_field
    = (Return (JArr []), Samples.no_field) ∧
  ("repos_filtered.json" = "repos_filtered.json" →
   Runner.load_filtered Samples.no_field = (Return (JArr []), Samples.no_field) ∧
   Runner.run_action "action_placeholder.py" Samples.no_field
     = (Return None, printed ["Running placeholder action..."] Samples.no_field) ∧
   Runner.run_action "action_check_uncommitted.py" Samples.no_field
     = (Return None, printed [""; "All repos are clean!"] Samples.no_field)).
Proof.
  apply (load_repos_default Samples.no_field "repos_filtered.json" [("version", JNum 1)]);
    vm_compute; reflexivity.
Defined.

(** ** Missing input files *)

Lemma load_repos_object (w : world) (filename : string) (fields : list (string * json)) :
  files w !! filename = Some (Document (JObj fields)) →
  Filter.load_repos filename w
    = (Return (default (JArr []) (dict_lookup fields "repos")), w).
Proof. intros H. run_py. by rewrite H. Qed.

Lemma filter_nothing_excluded (A : list string) : filter (λ r, r ∉ []) A = A.
Proof.
  induction A as [|a A IH]; [done|].
  rewrite filter_cons_True by apply not_elem_of_nil. by rewrite IH.
Qed.

(** C5. Loading a missing file prints a message and returns the empty
    list; so the filter step, run when one or both of its input files
    are missing, does not raise: it takes the empty list for the
    missing input and returns a list (empty when repos.json is missing,
    the whole of repos.json when only repos_exclude.json is), and the
    script ends with status zero. *)
Theorem filter_missing_input :
  (∀ w filename,
     files w !! filename = None →
     Filter.load_repos filename w =
     (Return (JArr []),
      printed ["Error: " +:+ filename +:+ " not found. Run 1_scan_repos.py first."] w)) ∧
  (∀ w,
     files w !! "repos.json" = None →
     files w !! "repos_exclude.json" = None →
     Filter.filter_repos w =
     (Return [],
      printed ["Error: repos.json not found. Run 1_scan_repos.py first.";
               "Error: repos_exclude.json not found. Run 1_scan_repos.py first."] w) ∧
     exit_status (Filter.main w).1 = 0%Z) ∧
  (∀ w fields,
     files w !! "repos.json" = None →
     files w !! "repos_exclude.json" = Some (Document (JObj fields)) →
     Filter.filter_repos w =
     (Return [],
      printed ["Error: repos.json not found. Run 1_scan_repos.py first."] w) ∧
     exit_status (Filter.main w).1 = 0%Z) ∧
  (∀ w A,
     files w !! "repos.json" = Some (Document (JObj [("repos", JArr A)])) →
     files w !! "repos_exclude.json" = None →
     Filter.filter_repos w =
     (Return A,
      printed ["Error: repos_exclude.json not found. Run 1_scan_repos.py first."] w) ∧
     exit_status (Filter.main w).1 = 0%Z).
Proof.
  split; [exact load_repos_missing|]. split; [|split].
  - intros w Hm He.
    assert (Hf : Filter.filter_repos w =
      (Return [],
       printed ["Error: repos.json not found. Run 1_scan_repos.py first.";
                "Error: repos_exclude.json not found. Run 1_scan_repos.py first."] w)).
    { unfold Filter.filter_repos, bind. rewrite (load_repos_missing w _ Hm).
      rewrite (load_repos_missing (printed _ w) "repos_exclude.json") by done.
      simpl. by rewrite printed_printed. }
    split; [done|]. by rewrite (filter_main_eq _ _ _ Hf).
  - intros w fields Hm He.
    assert (Hf : Filter.filter_repos w =
      (Return [],
       printed ["Error: repos.json not found. Run 1_scan_repos.py first."] w)).
    { unfold Filter.filter_repos, bind. rewrite (load_repos_missing w _ Hm).
      by rewrite (load_repos_object (printed _ w) "repos_exclude.json" fields). }
    split; [done|]. by rewrite (filter_main_eq _ _ _ Hf).
  - intros w A Hm He.
    assert (Hf : Filter.filter_repos w =
      (Return A,
       printed ["Error: repos_exclude.json not found. Run 1_scan_repos.py first."] w)).
    { unfold Filter.filter_repos, bind. rewrite (load_repos_list w _ A Hm).
      rewrite (load_repos_missing w _ He). unfold lift. simpl.
      by rewrite subtract_list, filter_nothing_excluded. }
    split; [done|]. by rewrite (filter_main_eq _ _ _ Hf).
Qed.

Lemma filter_missing_input_witness :
  Filter.filter_repos Samples.fresh =
  (Return [],
   printed ["Error: repos.json not found. Run 1_scan_repos.py first.";
            "Error: repos_exclude.json not found. Run 1_scan_repos.py first."]
           Samples.fresh) ∧
  exit_status (Filter.main Samples.fresh).1 = 0%Z.
Proof.
  apply (proj1 (proj2 filter_missing_input) Samples.fresh); vm_compute; reflexivity.
Defined.

(** ** Scanner and filter together *)

Lemma not_in_excluded (L : list string) (x : string) :
  x ∈ L → (x ∉ Scan.excluded L ↔ endswith x "DSPex" = true).
Proof.
  intros Hx. unfold Scan.excluded. rewrite list_elem_of_filter.
  destruct (endswith x "DSPex").
  - split; [done|]. by intros _ [? _].
  - split; [|done]. intros Hn. exfalso. by apply Hn.
Qed.

(** C8. Composing the scanner's exclude-list derivation with the
    filter step yields exactly the excluded-name entries: for every
    scanned list L, filtering L minus (the entries of L not ending with
    "DSPex") returns the entries of L that end with "DSPex", in their
    original order; the final working set is the complement of the
    exclude list within L. *)
Theorem exclude_then_filter (w : world) (L : list string) :
  files w !! "repos.json" = Some (Document (JObj [("repos", JArr L)])) →
  files w !! "repos_exclude.json"
    = Some (Document (JObj [("repos", JArr (Scan.excluded L))])) →
  ∃ out,
    Filter.filter_repos w = (Return out, w) ∧
    out = filter (λ r, endswith r "DSPex" = true) L ∧
    (∀ x, x ∈ out ↔ x ∈ L ∧ x ∉ Scan.excluded L).
Proof.
  intros HL HE. exists (filter (λ r, endswith r "DSPex" = true) L).
  assert (Heq : filter (λ r, r ∉ Scan.excluded L) L
                = filter (λ r, endswith r "DSPex" = true) L).
  { apply filter_ext_elem_of. intros x Hx. by apply not_in_excluded. }
  split; [|split].
  - rewrite (filter_repos_lists w L (Scan.excluded L) HL HE). by rewrite Heq.
  - done.
  - intros x. rewrite <- Heq, list_elem_of_filter. tauto.
Qed.

Lemma exclude_then_filter_witness :
  ∃ out,
    Filter.filter_repos Samples.scanned = (Return out, Samples.scanned) ∧
    out = filter (λ r, endswith r "DSPex" = true)
                 ["/home/u/DSPex"; "/home/u/MyDSPex"; "/home/u/zeta"] ∧
    (∀ x, x ∈ out ↔
          x ∈ ["/home/u/DSPex"; "/home/u/MyDSPex"; "/home/u/zeta"] ∧
          x ∉ Scan.excluded ["/home/u/DSPex"; "/home/u/MyDSPex"; "/home/u/zeta"]).
Proof.
  apply (exclude_then_filter Samples.scanned
           ["/home/u/DSPex"; "/home/u/MyDSPex"; "/home/u/zeta"]);
    vm_compute; reflexivity.
Defined.

(** The two scripts one after the other, from any world: the filtered
    list is the scanned list restricted to the entries ending with
    "DSPex". *)
Lemma scan_then_filter (w : world) :
  let repos := sort (Scan.scan_items (parent_dir w) (map_to_list (siblings w))) in
  Filter.filter_repos (Scan.main w).2
  = (Return (filter (λ r, r ∉ Scan.excluded repos) repos), (Scan.main w).2).
Proof.
  intros repos. apply filter_repos_lists; rewrite scan_main_eq; simpl.
  - rewrite lookup_insert_ne by done. by rewrite lookup_insert_eq.
  - by rewrite lookup_insert_eq.
Qed.

(** C9. Every list the pipeline persists is sorted.  The scanner sorts
    its full list; the exclude-list derivation and the filter step
    return sublists of their first input, in its order, hence sorted
    lists when that input is sorted; and after the scanner and the
    filter have run, from any world, the three files hold sorted
    lists. *)
Theorem pipeline_lists_sorted :
  (∀ w, ∃ repos, Scan.scan_repos w = (Return repos, w) ∧
                 StronglySorted String.le repos) ∧
  (∀ L, Scan.excluded L `sublist_of` L ∧
        (StronglySorted String.le L → StronglySorted String.le (Scan.excluded L))) ∧
  (∀ w A B,
     files w !! "repos.json" = Some (Document (JObj [("repos", JArr A)])) →
     files w !! "repos_exclude.json" = Some (Document (JObj [("repos", JArr B)])) →
     ∃ out, Filter.filter_repos w = (Return out, w) ∧
            out `sublist_of` A ∧
            (StronglySorted String.le A → StronglySorted String.le out)) ∧
  (∀ w, ∃ repos excluded_repos filtered,
     let w' := (Filter.main (Scan.main w).2).2 in
     files w' !! "repos.json" = Some (Document (JObj [("repos", JArr repos)])) ∧
     files w' !! "repos_exclude.json"
       = Some (Document (JObj [("repos", JArr excluded_repos)])) ∧
     files w' !! "repos_filtered.json"
       = Some (Document (JObj [("repos", JArr filtered)])) ∧
     StronglySorted String.le repos ∧
     StronglySorted String.le excluded_repos ∧
     StronglySorted String.le filtered).
Proof.
  split; [|split; [|split]].
  - intros w. eexists. split; [reflexivity|]. apply sort_sorted.
  - intros L. split; [apply sublist_filter|]. apply filter_sorted.
  - intros w A B HA HB. eexists. split; [by apply filter_repos_lists|].
    split; [apply sublist_filter|]. apply filter_sorted.
  - intros w.
    set (repos := sort (Scan.scan_items (parent_dir w) (map_to_list (siblings w)))).
    exists repos, (Scan.excluded repos), (filter (λ r, r ∉ Scan.excluded repos) repos).
    cbv zeta. rewrite (filter_main_eq _ _ _ (scan_then_filter w)).
    rewrite scan_main_eq. simpl. fold repos.
    assert (Hs : StronglySorted String.le repos) by apply sort_sorted.
    split; [|split; [|split; [|split; [|split]]]].
    + rewrite !lookup_insert_ne by done. by rewrite lookup_insert_eq.
    + rewrite lookup_insert_ne by done. by rewrite lookup_insert_eq.
    + by rewrite lookup_insert_eq.
    + done.
    + by apply filter_sorted.
    + by apply filter_sorted.
Qed.

Lemma pipeline_lists_sorted_witness :
  ∃ out,
    Filter.filter_repos Samples.by_hand = (Return out, Samples.by_hand) ∧
    out `sublist_of` ["/r/a"; "/r/b"; "/r/c"] ∧
    (StronglySorted String.le ["/r/a"; "/r/b"; "/r/c"] → StronglySorted String.le out).
Proof.
  apply (proj1 (proj2 (proj2 pipeline_lists_sorted))
           Samples.by_hand ["/r/a"; "/r/b"; "/r/c"] ["/r/b"]);
    vm_compute; reflexivity.
Defined.

(** ** The exclude list and path names *)

Lemma string_app_cons (c : ascii) (a b : string) :
  String c a +:+ b = String c (a +:+ b).
Proof. reflexivity. Qed.

Lemma string_length_app (a b : string) :
  String.length (a +:+ b) = String.length a + String.length b.
Proof.
  induction a as [|c a IH]; [done|].
  rewrite string_app_cons. simpl. by rewrite IH.
Qed.

Lemma string_app_assoc (a b c : string) : a +:+ (b +:+ c) = (a +:+ b) +:+ c.
Proof.
  induction a as [|x a IH]; [done|].
  rewrite !string_app_cons. by rewrite IH.
Qed.

Lemma substring_all (b : string) : String.substring 0 (String.length b) b = b.
Proof. induction b as [|c b IH]; simpl; [done|]. by rewrite IH. Qed.

Lemma substring_app_r (a b : string) :
  String.substring (String.length a) (String.length b) (a +:+ b) = b.
Proof.
  induction a as [|c a IH]; [apply substring_all|].
  rewrite string_app_cons. simpl. apply IH.
Qed.

Lemma substring_split (s : string) (i : nat) :
  i ≤ String.length s →
  s = String.substring 0 i s +:+ String.substring i (String.length s - i) s.
Proof.
  revert i. induction s as [|c s IH]; intros [|i] Hi; simpl in *; try lia.
  - done.
  - by rewrite substring_all.
  - rewrite string_app_cons. f_equal. apply IH. lia.
Qed.

(** [endswith] is what its name says. *)
Lemma endswith_spec (s suffix : string) :
  endswith s suffix = true ↔ ∃ p, s = p +:+ suffix.
Proof.
  unfold endswith. rewrite andb_true_iff, Nat.leb_le, String.eqb_eq. split.
  - intros [Hle Hsub]. exists (String.substring 0 (String.length s - String.length suffix) s).
    pose proof (substring_split s (String.length s - String.length suffix)) as Hs.
    replace (String.length s - (String.length s - String.length suffix))
      with (String.length suffix) in Hs by lia.
    rewrite Hsub in Hs. apply Hs. lia.
  - intros [p ->]. rewrite string_length_app. split; [lia|].
    replace (String.length p + String.length suffix - String.length suffix)
      with (String.length p) by lia.
    apply substring_app_r.
Qed.

(** The exclude list keeps the order of the full list and drops the
    entries whose path string ends with "DSPex", no other. *)
Lemma excluded_spec (repos : list string) :
  Scan.excluded repos `sublist_of` repos ∧
  ∀ r, r ∈ Scan.excluded repos ↔ r ∈ repos ∧ ¬ ∃ p, r = p +:+ "DSPex".
Proof.
  split; [apply sublist_filter|]. intros r. unfold Scan.excluded.
  rewrite list_elem_of_filter, <- endswith_spec.
  destruct (endswith r "DSPex"); split; intros [H1 H2]; split; try done.
Qed.

(** A directory named DSPex is dropped wherever it lies. *)
Lemma excluded_drops_DSPex (parent : string) (repos : list string) :
  path_join parent "DSPex" ∉ Scan.excluded repos.
Proof.
  intros [_ Hn]%excluded_spec. apply Hn. unfold path_join. case_decide.
  - by exists "/".
  - exists (parent +:+ "/"). apply string_app_assoc.
Qed.

(** C1, on the code: a repository directory MyDSPex next to DSPex is
    scanned, and the exclude list drops it together with DSPex, though
    the last segment of its path is MyDSPex and not DSPex. *)
Theorem excluded_drops_longer_name :
  Scan.scan_repos Samples.fresh
    = (Return ["/home/u/DSPex"; "/home/u/MyDSPex"; "/home/u/zeta"], Samples.fresh) ∧
  Scan.excluded ["/home/u/DSPex"; "/home/u/MyDSPex"; "/home/u/zeta"] = ["/home/u/zeta"] ∧
  path_name "/home/u/MyDSPex" = "MyDSPex" ∧
  path_name "/home/u/MyDSPex" ≠ "DSPex".
Proof. vm_compute. repeat split; congruence. Qed.

(** ** Stripping the status output *)

Lemma lstrip_head (s : list N) :
  lstrip s = [] ∨ ∃ c t, lstrip s = c :: t ∧ isspace c = false.
Proof.
  induction s as [|c s IH]; simpl; [by left|].
  destruct (isspace c) eqn:Hc; [done|]. right. by exists c, s.
Qed.

Lemma lstrip_nil (s : list N) :
  lstrip s = [] ↔ ∀ c, c ∈ s → isspace c = true.
Proof.
  induction s as [|c s IH]; simpl.
  - split; [|done]. by intros _ c ?%elem_of_nil.
  - destruct (isspace c) eqn:Hc.
    + rewrite IH. split.
      * intros Hs x [->|Hx]%elem_of_cons; [done|by apply Hs].
      * intros Hs x Hx. apply Hs. by right.
    + split; [done|]. intros Hs. rewrite Hs in Hc; [done|by left].
Qed.

Lemma elem_of_lstrip (s : list N) (c : N) : c ∈ lstrip s → c ∈ s.
Proof.
  induction s as [|a s IH]; simpl; [done|].
  destruct (isspace a); [|done]. intros Hc. right. by apply IH.
Qed.

(** What [strip] leaves is empty exactly when every character is
    white space. *)
Lemma strip_nil (s : list N) :
  strip s = [] ↔ ∀ c, c ∈ s → isspace c = true.
Proof.
  unfold strip, rstrip. rewrite <- lstrip_nil. split.
  - intros Hs. apply (f_equal reverse) in Hs. rewrite reverse_involutive in Hs.
    rewrite reverse_nil in Hs. pose proof (proj1 (lstrip_nil _) Hs) as Hall.
    destruct (lstrip_head s) as [Hnil|(c & t & Heq & Hc)]; [done|].
    rewrite Heq in Hall. rewrite (Hall c) in Hc; [done|].
    apply elem_of_reverse. by left.
  - intros ->. done.
Qed.

Lemma strip_not_nil (s : list N) :
  strip s ≠ [] ↔ ∃ c, c ∈ s ∧ isspace c = false.
Proof.
  rewrite strip_nil. split.
  - intros Hn. induction s as [|a s IH].
    + exfalso. apply Hn. by intros c ?%elem_of_nil.
    + destruct (isspace a) eqn:Ha.
      * destruct IH as (c & Hc & Hs).
        { intros Hall. apply Hn. intros x [->|Hx]%elem_of_cons; [done|by apply Hall]. }
        exists c. split; [by right|done].
      * exists a. split; [by left|done].
  - intros (c & Hc & Hs) Hall. rewrite (Hall c Hc) in Hs. done.
Qed.

(** The check on any output whatever.  When the status query completes,
    the check reports dirty if and only if the output is not empty once
    leading and trailing white space is stripped, that is when it holds
    a character that is not white space, and nothing is printed; when
    the query raises an exception, the check prints a diagnostic and
    returns clean (False) rather than raising. *)
Theorem check_uncommitted_spec (w : world) (repo_path : string) :
  match git_status w repo_path with
  | Completed out =>
      ∃ dirty,
        Uncommitted.check_uncommitted repo_path w = (Return dirty, w) ∧
        (dirty = true ↔ strip out ≠ []) ∧
        (dirty = true ↔ ∃ c, c ∈ out ∧ isspace c = false)
  | Failed e =>
      Uncommitted.check_uncommitted repo_path w =
      (Return false,
       printed ["Error checking " +:+ repo_path +:+ ": " +:+ exn_str e] w)
  end.
Proof.
  destruct (git_status w repo_path) as [out|e] eqn:Hgit.
  - exists (bool_decide (strip out ≠ [])). split; [|split].
    + unfold Uncommitted.check_uncommitted. run_py. by rewrite Hgit.
    + apply bool_decide_eq_true.
    + rewrite <- strip_not_nil. apply bool_decide_eq_true.
  - unfold Uncommitted.check_uncommitted. run_py. by rewrite Hgit.
Qed.

(** Output that is only white space, which git's status query does
    not print, would count as clean: here a stand-in answers a lone
    newline. *)
Lemma check_uncommitted_blank_output :
  git_status Samples.fresh "/home/u/MyDSPex" = Completed [10%N] ∧
  [10%N] ≠ [] ∧
  Uncommitted.check_uncommitted "/home/u/MyDSPex" Samples.fresh
    = (Return false, Samples.fresh).
Proof. vm_compute. repeat split; congruence. Qed.

(** ** The check on what git prints *)

Lemma porcelain_output_nil (entries : list Porcelain.entry) :
  Porcelain.output entries = [] ↔ entries = [].
Proof. split; [|by intros ->]. by destruct entries. Qed.

Lemma porcelain_output_not_blank (entries : list Porcelain.entry) :
  Forall (λ e, Porcelain.well_formed e = true) entries →
  entries ≠ [] →
  ∃ c, c ∈ Porcelain.output entries ∧ isspace c = false.
Proof.
  intros Hwf Hne. destruct entries as [|e rest]; [done|].
  apply Forall_cons in Hwf as [He _].
  unfold Porcelain.well_formed in He.
  apply negb_true_iff, andb_false_iff in He as [Hx|Hy].
  - exists (Porcelain.index_state e). split; [|done].
    unfold Porcelain.output. simpl. by left.
  - exists (Porcelain.tree_state e). split; [|done].
    unfold Porcelain.output. simpl. right. by left.
Qed.

Lemma porcelain_strip (entries : list Porcelain.entry) :
  Forall (λ e, Porcelain.well_formed e = true) entries →
  strip (Porcelain.output entries) ≠ [] ↔ Porcelain.output entries ≠ [].
Proof.
  intros Hwf. split.
  - intros Hs Hnil. apply Hs. by rewrite Hnil.
  - intros Hne. apply strip_not_nil, porcelain_output_not_blank; [done|].
    intros ->. by apply Hne.
Qed.

(** C4. For every repository path, with git answering the status query
    in its short format: the uncommitted-change check reports dirty if
    and only if the query returns non-empty output, that is if and only
    if git lists an entry (any pending working-tree change), printing
    nothing; and whenever the query cannot run at all and raises
    (timeout, missing tool, invalid path) the check returns clean
    (False) rather than raising, printing a diagnostic. *)
Theorem check_uncommitted_dirty_iff (w : world) (repo_path : string) :
  (∀ out, git_status w repo_path = Completed out →
     ∃ entries, Forall (λ e, Porcelain.well_formed e = true) entries ∧
                out = Porcelain.output entries) →
  ∃ dirty lines,
    Uncommitted.check_uncommitted repo_path w = (Return dirty, printed lines w) ∧
    (dirty = true ↔ ∃ out, git_status w repo_path = Completed out ∧ out ≠ []) ∧
    (∀ entries, git_status w repo_path = Completed (Porcelain.output entries) →
                lines = [] ∧ (dirty = true ↔ entries ≠ [])) ∧
    (∀ e, git_status w repo_path = Failed e →
          dirty = false ∧
          lines = ["Error checking " +:+ repo_path +:+ ": " +:+ exn_str e]).
Proof.
  intros Hgit. pose proof (check_uncommitted_spec w repo_path) as Hspec.
  destruct (git_status w repo_path) as [out|e].
  - destruct (Hgit out eq_refl) as (entries & Hwf & ->).
    destruct Hspec as (dirty & Hcheck & Hstrip & _).
    rewrite (porcelain_strip entries Hwf) in Hstrip.
    exists dirty, []. rewrite printed_nil. split; [done|]. split; [|split].
    + rewrite Hstrip. split.
      * intros Hne. by eexists.
      * intros (out & Heq & Hne). by simplify_eq.
    + intros entries' Heq. split; [done|].
      injection Heq as Heq. by rewrite Hstrip, Heq, porcelain_output_nil.
    + by intros e He.
  - exists false, ["Error checking " +:+ repo_path +:+ ": " +:+ exn_str e].
    split; [done|]. split; [|split].
    + split; [done|]. by intros (out & Heq & _).
    + by intros entries Heq.
    + intros e' He'. by simplify_eq.
Qed.

Lemma check_uncommitted_dirty_iff_witness :
  ∃ dirty lines,
    Uncommitted.check_uncommitted "/home/u/DSPex" Samples.fresh
      = (Return dirty, printed lines Samples.fresh) ∧
    (dirty = true ↔
       ∃ out, git_status Samples.fresh "/home/u/DSPex" = Completed out ∧ out ≠ []) ∧
    (∀ entries,
       git_status Samples.fresh "/home/u/DSPex" = Completed (Porcelain.output entries) →
       lines = [] ∧ (dirty = true ↔ entries ≠ [])) ∧
    (∀ e, git_status Samples.fresh "/home/u/DSPex" = Failed e →
          dirty = false ∧
          lines = ["Error checking " +:+ "/home/u/DSPex" +:+ ": " +:+ exn_str e]).
Proof.
  apply (check_uncommitted_dirty_iff Samples.fresh "/home/u/DSPex").
  intros out Hout. vm_compute in Hout. injection Hout as <-.
  exists [Porcelain.Entry 32 77 [97%N]]. split; [|reflexivity].
  repeat constructor.
Defined.

(** ** The dispatcher *)




(** * Further properties of the scripts *)

(** ** The scanner *)

Lemma scan_items_NoDup (parent : string) (items : list (string * node)) :
  NoDup (items.*1) → NoDup (Scan.scan_items parent items).
Proof.
  induction items as [|[name item] rest IH]; simpl; intros Hnd.
  - constructor.
  - apply NoDup_cons in Hnd as [Hname Hrest].
    destruct (Scan.is_dir item); [|by apply IH].
    destruct (Scan.is_git_repo item && Scan.is_elixir_repo item); [|by apply IH].
    apply NoDup_cons. split; [|by apply IH].
    intros (n & e & Hin & Heq & _)%elem_of_scan_items.
    apply path_join_inj in Heq as <-. apply Hname.
    apply list_elem_of_fmap. by exists (name, Dir e).
Qed.

(** X1. No path occurs twice in the scanner's result: two entries of a
    directory have two names, and joining the parent's path keeps them
    apart. *)
Theorem scan_repos_NoDup (w : world) :
  ∃ repos, Scan.scan_repos w = (Return repos, w) ∧ NoDup repos.
Proof.
  eexists. split; [reflexivity|]. unfold sort.
  rewrite merge_sort_Permutation.
  apply scan_items_NoDup, NoDup_fst_map_to_list.
Qed.

(** The order in which the directory is listed does not show in the
    scanner's result, here on the sample directory listed backwards. *)
Lemma scan_order_irrelevant_witness :
  sort (Scan.scan_items (parent_dir Samples.fresh)
          (reverse (map_to_list (siblings Samples.fresh))))
  = sort (Scan.scan_items (parent_dir Samples.fresh)
            (map_to_list (siblings Samples.fresh))).
Proof.
  apply (scan_order_irrelevant Samples.fresh).
  apply reverse_Permutation.
Defined.

(** X3. The exclude list keeps the order of the full list, drops the
    entries whose path string ends with "DSPex" and no other, and
    deriving it again from itself changes nothing. *)
Theorem excluded_keeps_iff (repos : list string) :
  Scan.excluded repos `sublist_of` repos ∧
  (∀ r, r ∈ Scan.excluded repos ↔ r ∈ repos ∧ ¬ ∃ p, r = p +:+ "DSPex") ∧
  Scan.excluded (Scan.excluded repos) = Scan.excluded repos ∧
  length (Scan.excluded repos) ≤ length repos.
Proof.
  destruct (excluded_spec repos) as [Hsub Hiff].
  split; [done|]. split; [done|]. split.
  - unfold Scan.excluded. apply list_filter_filter_l. tauto.
  - by apply sublist_length.
Qed.

(** X4. Running the scanner again over an unchanged directory rewrites the
    same two files: what the working directory holds after two runs is
    what it holds after one, whatever it held before. *)
Theorem scan_main_idempotent (w : world) :
  (Scan.main (Scan.main w).2).1 = Return tt ∧
  files (Scan.main (Scan.main w).2).2 = files (Scan.main w).2.
Proof.
  rewrite (scan_main_eq (Scan.main w).2). rewrite (scan_main_eq w). simpl.
  split; [done|]. apply map_eq. intros k.
  destruct (decide ("repos_exclude.json" = k)) as [<-|Hk1].
  { by rewrite !lookup_insert_eq. }
  rewrite !(lookup_insert_ne _ "repos_exclude.json") by done.
  destruct (decide ("repos.json" = k)) as [<-|Hk2].
  { by rewrite !lookup_insert_eq. }
  rewrite !(lookup_insert_ne _ "repos.json") by done.
  rewrite (lookup_insert_ne _ "repos_exclude.json") by done.
  by rewrite (lookup_insert_ne _ "repos.json") by done.
Qed.

(** X5. What the scanner persists is what the filter loads: after
    [1_scan_repos.py], from any world, [load_repos] returns the scanned
    list for repos.json and its exclude list for repos_exclude.json,
    and prints nothing. *)
Theorem scan_then_load (w : world) :
  ∃ repos,
    Scan.scan_repos w = (Return repos, w) ∧
    Filter.load_repos "repos.json" (Scan.main w).2
      = (Return (JArr repos), (Scan.main w).2) ∧
    Filter.load_repos "repos_exclude.json" (Scan.main w).2
      = (Return (JArr (Scan.excluded repos)), (Scan.main w).2).
Proof.
  eexists. split; [reflexivity|]. split.
  - apply load_repos_list. rewrite scan_main_eq. simpl.
    rewrite lookup_insert_ne by done. by rewrite lookup_insert_eq.
  - apply load_repos_list. rewrite scan_main_eq. simpl.
    by rewrite lookup_insert_eq.
Qed.

(** ** Paths and names *)

Lemma split_slash_not_nil (s : string) : split_slash s ≠ [].
Proof.
  induction s as [|c s IH]; simpl; [done|].
  destruct (Ascii.eqb c "/"); [done|]. by destruct (split_slash s).
Qed.

Lemma split_slash_app (a b : string) :
  split_slash (a +:+ "/" +:+ b) = split_slash a ++ split_slash b.
Proof.
  induction a as [|c a IH]; [done|].
  rewrite string_app_cons. simpl. rewrite IH.
  destruct (Ascii.eqb c "/"); [done|].
  pose proof (split_slash_not_nil a). by destruct (split_slash a).
Qed.

Lemma split_slash_no_slash (s : string) :
  Report.no_slash s = true → split_slash s = [s].
Proof.
  induction s as [|c s IH]; simpl; [done|].
  intros [Hc Hs]%andb_true_iff. apply negb_true_iff in Hc. rewrite Hc.
  by rewrite IH.
Qed.

(** X6. The name an action prints for a path the scanner built is the
    name of the directory: [Path(str(parent / name)).name] is [name],
    for a name that is not empty, is not ".", and has no "/". *)
Theorem path_name_path_join (parent name : string) :
  name ≠ "" → name ≠ "." → Report.no_slash name = true →
  path_name (path_join parent name) = name.
Proof.
  intros Hne Hdot Hslash.
  assert (Hsplit : ∃ l, split_slash (path_join parent name) = l ++ [name]).
  { unfold path_join. case_decide.
    - exists [""]. change ("/" +:+ name) with ("" +:+ "/" +:+ name).
      by rewrite split_slash_app, (split_slash_no_slash name).
    - exists (split_slash parent).
      by rewrite split_slash_app, (split_slash_no_slash name). }
  destruct Hsplit as [l Hl]. unfold path_name. rewrite Hl.
  rewrite filter_app, (filter_cons_True _ name) by done.
  by rewrite filter_nil, last_snoc.
Qed.

Lemma path_name_path_join_witness :
  path_name (path_join "/home/u" "DSPex") = "DSPex".
Proof.
  apply (path_name_path_join "/home/u" "DSPex"); [done|done|].
  vm_compute. reflexivity.
Defined.

(** ** The filter: what it reads and what it writes *)

(** [load_repos] by the state of the file. *)
Lemma load_repos_cases (filename : string) (w : world) :
  Filter.load_repos filename w =
  match files w !! filename with
  | None =>
      (Return (JArr []),
       printed ["Error: " +:+ filename +:+ " not found. Run 1_scan_repos.py first."] w)
  | Some (Malformed msg) => (Raise (Exn JSONDecodeError msg), w)
  | Some (Document (JObj fields)) =>
      (Return (default (JArr []) (dict_lookup fields "repos")), w)
  | Some (Document j) =>
      (Raise (Exn AttributeError
                  ("'" +:+ type_name j +:+ "' object has no attribute 'get'")), w)
  end.
Proof.
  unfold Filter.load_repos, try_except, bind, read_json, lift.
  destruct (files w !! filename) as [[msg|j]|]; [done| |done].
  by destruct j.
Qed.

Lemma load_repos_prints (filename : string) (w : world) :
  ∃ lines, (Filter.load_repos filename w).2 = printed lines w.
Proof.
  rewrite load_repos_cases.
  destruct (files w !! filename) as [[msg|j]|]; [| |by eexists];
    [|destruct j]; exists []; by rewrite printed_nil.
Qed.

Lemma load_repos_files (filename : string) (w : world) :
  files (Filter.load_repos filename w).2 = files w.
Proof. destruct (load_repos_prints filename w) as [l ->]. done. Qed.

Lemma load_repos_outcome (filename : string) (w1 w2 : world) :
  files w1 !! filename = files w2 !! filename →
  (Filter.load_repos filename w1).1 = (Filter.load_repos filename w2).1.
Proof.
  intros H. rewrite !load_repos_cases, H.
  destruct (files w2 !! filename) as [[msg|j]|]; [done| |done]. by destruct j.
Qed.

Lemma filter_repos_prints (w : world) :
  ∃ lines, (Filter.filter_repos w).2 = printed lines w.
Proof.
  unfold Filter.filter_repos, bind, lift.
  destruct (load_repos_prints "repos.json" w) as [l1 H1].
  destruct (Filter.load_repos "repos.json" w) as [[m|e|c] w1]; simpl in *;
    [|by exists l1..]. subst w1.
  destruct (load_repos_prints "repos_exclude.json" (printed l1 w)) as [l2 H2].
  destruct (Filter.load_repos "repos_exclude.json" (printed l1 w)) as [[x|e|c] w2];
    simpl in *; subst w2; rewrite printed_printed; [|by eexists..].
  destruct (iterate m) as [items|e|c]; simpl; [|by eexists..].
  destruct (Filter.subtract items x); simpl; by eexists.
Qed.

Lemma filter_repos_files (w : world) :
  files (Filter.filter_repos w).2 = files w.
Proof. destruct (filter_repos_prints w) as [l ->]. done. Qed.

Lemma filter_repos_outcome (w1 w2 : world) :
  files w1 !! "repos.json" = files w2 !! "repos.json" →
  files w1 !! "repos_exclude.json" = files w2 !! "repos_exclude.json" →
  (Filter.filter_repos w1).1 = (Filter.filter_repos w2).1.
Proof.
  intros Hm He. unfold Filter.filter_repos, bind, lift.
  pose proof (load_repos_outcome "repos.json" w1 w2 Hm) as Ho.
  pose proof (load_repos_files "repos.json" w1) as Hf1.
  pose proof (load_repos_files "repos.json" w2) as Hf2.
  destruct (Filter.load_repos "repos.json" w1) as [o1 w1'],
           (Filter.load_repos "repos.json" w2) as [o2 w2'].
  simpl in *. subst o2. destruct o1 as [m|e|c]; [|done..].
  assert (He' : files w1' !! "repos_exclude.json" = files w2' !! "repos_exclude.json")
    by (by rewrite Hf1, Hf2).
  pose proof (load_repos_outcome "repos_exclude.json" w1' w2' He') as Ho'.
  destruct (Filter.load_repos "repos_exclude.json" w1') as [o1 w1''],
           (Filter.load_repos "repos_exclude.json" w2') as [o2 w2''].
  simpl in *. subst o2. destruct o1 as [x|e|c]; [|done..].
  destruct (iterate m) as [items|e|c]; [|done..].
  by destruct (Filter.subtract items x).
Qed.

(** X7. The filter script touches one file only: whatever happens, every
    file of the working directory other than repos_filtered.json is
    after the run what it was before, and so is the parent directory. *)
Theorem filter_main_writes_one_file (w : world) :
  siblings (Filter.main w).2 = siblings w ∧
  ∀ k, k ≠ "repos_filtered.json" → files (Filter.main w).2 !! k = files w !! k.
Proof.
  unfold Filter.main, bind.
  destruct (filter_repos_prints w) as [lines Hw].
  destruct (Filter.filter_repos w) as [[out|e|c] w']; simpl in *; subst w';
    [|done..].
  unfold write_json, print. rewrite print_items_eq. simpl.
  split; [done|]. intros k Hk. by rewrite lookup_insert_ne.
Qed.

(** X8. Running the filter script a second time changes nothing: when a
    run has returned, the next one returns too and leaves the same
    files. *)
Theorem filter_main_idempotent (w : world) :
  (Filter.main w).1 = Return tt →
  (Filter.main (Filter.main w).2).1 = Return tt ∧
  files (Filter.main (Filter.main w).2).2 = files (Filter.main w).2.
Proof.
  intros Hret.
  pose proof (filter_repos_files w) as Hf.
  destruct (Filter.filter_repos w) as [o w'] eqn:Hfr. simpl in Hf.
  destruct o as [out|e|c];
    [|unfold Filter.main, bind in Hret; rewrite Hfr in Hret; done..].
  rewrite (filter_main_eq w w' out Hfr). simpl.
  set (w2 := printed _ _).
  assert (Ho : (Filter.filter_repos w2).1 = Return out).
  { rewrite (filter_repos_outcome w2 w).
    - by rewrite Hfr.
    - unfold w2. simpl. rewrite lookup_insert_ne by done. by rewrite Hf.
    - unfold w2. simpl. rewrite lookup_insert_ne by done. by rewrite Hf. }
  pose proof (filter_repos_files w2) as Hf2.
  destruct (Filter.filter_repos w2) as [o2 w2'] eqn:Hfr2. simpl in Ho, Hf2. subst o2.
  rewrite (filter_main_eq w2 w2' out Hfr2). simpl. split; [done|].
  rewrite Hf2. unfold w2. simpl. by rewrite insert_insert_eq.
Qed.

Lemma filter_main_idempotent_witness :
  (Filter.main (Filter.main Samples.by_hand).2).1 = Return tt ∧
  files (Filter.main (Filter.main Samples.by_hand).2).2
    = files (Filter.main Samples.by_hand).2.
Proof.
  apply (filter_main_idempotent Samples.by_hand). vm_compute. reflexivity.
Defined.

(** ** The filter: inputs it cannot use *)

(** X9. Only a missing file is forgiven.  When repos.json is there but is
    not JSON, or is JSON but not an object, the filter script raises
    (the decoder's error, or AttributeError for the missing [get]),
    prints nothing, writes nothing, and ends with status 1. *)
Theorem filter_main_unusable_input :
  (∀ w msg,
     files w !! "repos.json" = Some (Malformed msg) →
     Filter.main w = (Raise (Exn JSONDecodeError msg), w) ∧
     exit_status (Filter.main w).1 = 1%Z) ∧
  (∀ w j,
     files w !! "repos.json" = Some (Document j) →
     (∀ fields, j ≠ JObj fields) →
     Filter.main w =
     (Raise (Exn AttributeError
                 ("'" +:+ type_name j +:+ "' object has no attribute 'get'")), w) ∧
     exit_status (Filter.main w).1 = 1%Z).
Proof.
  split.
  - intros w msg H.
    assert (Hm : Filter.main w = (Raise (Exn JSONDecodeError msg), w)).
    { unfold Filter.main, Filter.filter_repos, bind.
      by rewrite load_repos_cases, H. }
    by rewrite Hm.
  - intros w j H Hj.
    assert (Hm : Filter.main w =
      (Raise (Exn AttributeError
                  ("'" +:+ type_name j +:+ "' object has no attribute 'get'")), w)).
    { unfold Filter.main, Filter.filter_repos, bind.
      rewrite load_repos_cases, H. destruct j; try done. by destruct (Hj fields). }
    by rewrite Hm.
Qed.

Lemma filter_main_unusable_input_witness :
  Filter.main Cases.broken_main
    = (Raise (Exn JSONDecodeError "Expecting value: line 1 column 1 (char 0)"),
       Cases.broken_main) ∧
  exit_status (Filter.main Cases.broken_main).1 = 1%Z.
Proof.
  apply (proj1 filter_main_unusable_input Cases.broken_main).
  vm_compute. reflexivity.
Defined.

(** X10. The membership test of the comprehension runs once per entry of
    the main list, so an exclude value that is no container (null, a
    boolean, a number) goes unnoticed when the main list is empty and
    raises TypeError as soon as it has one entry. *)
Theorem filter_repos_no_container (w : world) (A : list string) (v : json) :
  files w !! "repos.json" = Some (Document (JObj [("repos", JArr A)])) →
  files w !! "repos_exclude.json" = Some (Document (JObj [("repos", v)])) →
  (∀ items, v ≠ JArr items) → (∀ fields, v ≠ JObj fields) →
  Filter.filter_repos w =
  match A with
  | [] => (Return [], w)
  | _ :: _ =>
      (Raise (Exn TypeError
                  ("argument of type '" +:+ type_name v +:+ "' is not iterable")), w)
  end.
Proof.
  intros HA HB Harr Hobj. unfold Filter.filter_repos, bind, lift.
  rewrite (load_repos_list w _ A HA). rewrite load_repos_cases, HB. simpl.
  destruct (decide ("repos" = "repos")); [|done]. simpl.
  destruct A as [|a A]; [done|]. simpl.
  destruct v; try done; [by destruct (Harr items)|by destruct (Hobj fields)].
Qed.

Lemma filter_repos_no_container_witness :
  Filter.filter_repos Cases.null_exclude =
  (Raise (Exn TypeError "argument of type 'NoneType' is not iterable"),
   Cases.null_exclude).
Proof.
  apply (filter_repos_no_container Cases.null_exclude ["/r/a"] JNull);
    [vm_compute; reflexivity|vm_compute; reflexivity|done|done].
Defined.

(** ** The actions on a list *)

Lemma check_uncommitted_eq (repo : string) (w : world) :
  Uncommitted.check_uncommitted repo w
  = (Return (Report.dirty w repo), printed (Report.diagnostic w repo) w).
Proof.
  unfold Uncommitted.check_uncommitted, Report.dirty, Report.diagnostic.
  run_py. destruct (git_status w repo); [|done].
  destruct w. simpl. by rewrite app_nil_r.
Qed.

Lemma check_all_eq (items acc : list string) (w : world) :
  Uncommitted.check_all items acc w
  = (Return (acc ++ filter (λ r, Report.dirty w r = true) items),
     printed (concat (Report.status_lines w <$> items)) w).
Proof.
  revert acc w. induction items as [|repo rest IH]; intros acc w; simpl.
  - unfold ret. by rewrite app_nil_r, printed_nil.
  - unfold bind. rewrite check_uncommitted_eq. rewrite filter_cons.
    unfold Report.status_lines at 1.
    destruct (Report.dirty w repo) eqn:Hd; simpl; unfold print;
      rewrite IH, !printed_printed.
    + rewrite <- (app_assoc acc). reflexivity.
    + reflexivity.
Qed.

Lemma uncommitted_run_eq (repos : json) (items : list string) (w : world) :
  iterate repos = Return items →
  Uncommitted.run repos w =
  (Return tt,
   printed (concat (Report.status_lines w <$> items)
            ++ Report.summary (filter (λ r, Report.dirty w r = true) items)) w).
Proof.
  intros Hit. unfold Uncommitted.run, bind, lift. rewrite Hit.
  rewrite check_all_eq. simpl. unfold print.
  destruct (filter (λ r, Report.dirty w r = true) items) as [|r changed] eqn:Hf.
  - unfold Report.summary. by rewrite !printed_printed.
  - rewrite print_items_eq, !printed_printed. reflexivity.
Qed.

Lemma dirty_iff (w : world) (repo : string) :
  Report.dirty w repo = true ↔
  ∃ out, git_status w repo = Completed out ∧ ∃ c, c ∈ out ∧ isspace c = false.
Proof.
  unfold Report.dirty. destruct (git_status w repo) as [out|e].
  - rewrite bool_decide_eq_true, strip_not_nil. split.
    + intros H. by exists out.
    + intros (out' & Heq & H). by simplify_eq.
  - split; [done|]. by intros (out & Heq & _).
Qed.

(** X11. The uncommitted action on a list (or on the keys of an object): it
    returns, it prints the status line of each repository in order,
    after the diagnostic of its query if that raised, and its summary
    lists, in order, exactly the repositories whose query completed
    with output that is not blank; a repository whose query raised is
    reported clean. *)
Theorem uncommitted_run_report (repos : json) (items : list string) (w : world) :
  iterate repos = Return items →
  ∃ changed,
    Uncommitted.run repos w =
    (Return tt,
     printed (concat (Report.status_lines w <$> items) ++ Report.summary changed) w) ∧
    changed `sublist_of` items ∧
    ∀ r, r ∈ changed ↔
         r ∈ items ∧
         ∃ out, git_status w r = Completed out ∧ ∃ c, c ∈ out ∧ isspace c = false.
Proof.
  intros Hit. exists (filter (λ r, Report.dirty w r = true) items).
  split; [by apply uncommitted_run_eq|]. split; [apply sublist_filter|].
  intros r. rewrite list_elem_of_filter, dirty_iff. tauto.
Qed.

Lemma uncommitted_run_report_witness :
  ∃ changed,
    Uncommitted.run (JArr ["/home/u/DSPex"; "/home/u/zeta"; "/home/u/MyDSPex"])
                    Cases.three_repos =
    (Return tt,
     printed (concat (Report.status_lines Cases.three_repos
                        <$> ["/home/u/DSPex"; "/home/u/zeta"; "/home/u/MyDSPex"])
              ++ Report.summary changed) Cases.three_repos) ∧
    changed `sublist_of` ["/home/u/DSPex"; "/home/u/zeta"; "/home/u/MyDSPex"] ∧
    ∀ r, r ∈ changed ↔
         r ∈ ["/home/u/DSPex"; "/home/u/zeta"; "/home/u/MyDSPex"] ∧
         ∃ out, git_status Cases.three_repos r = Completed out ∧
                ∃ c, c ∈ out ∧ isspace c = false.
Proof.
  apply (uncommitted_run_report _ ["/home/u/DSPex"; "/home/u/zeta"; "/home/u/MyDSPex"]).
  reflexivity.
Defined.

(** What that report is on the sample: DSPex is dirty, the query of
    zeta times out and zeta counts as clean, MyDSPex answers a lone
    newline and is clean. *)
Example uncommitted_run_example :
  stdout (Uncommitted.run (JArr ["/home/u/DSPex"; "/home/u/zeta"; "/home/u/MyDSPex"])
                          Cases.three_repos).2
  = [ "✗ DSPex - has uncommitted changes";
      "Error checking /home/u/zeta: Command '['git', 'status', '--porcelain']' timed out after 10 seconds";
      "✓ zeta - clean";
      "✓ MyDSPex - clean";
      "";
      "Repos with uncommitted work (1):";
      "  - /home/u/DSPex" ].
Proof. vm_compute. reflexivity. Qed.

Lemma process_all_eq (items : list string) (w : world) :
  Placeholder.process_all items w
  = (Return tt, printed ((λ repo, "  Processing: " +:+ path_name repo) <$> items) w).
Proof.
  revert w. induction items as [|repo rest IH]; intros w; simpl.
  - unfold ret. by rewrite printed_nil.
  - unfold bind, print. by rewrite IH, printed_printed.
Qed.

(** X12. The placeholder action prints its heading first and then one line
    per repository, with the last component of its path; on a value
    that cannot be iterated the heading is printed all the same before
    the TypeError is raised. *)
Theorem placeholder_run_report (repos : json) (w : world) :
  Placeholder.run repos w =
  match iterate repos with
  | Return items =>
      (Return tt,
       printed ("Running placeholder action..."
                :: ((λ repo, "  Processing: " +:+ path_name repo) <$> items)) w)
  | Raise e => (Raise e, printed ["Running placeholder action..."] w)
  | Exit c => (Exit c, printed ["Running placeholder action..."] w)
  end.
Proof.
  unfold Placeholder.run, bind, print, lift.
  destruct (iterate repos) as [items|e|c]; [|done..].
  by rewrite process_all_eq, printed_printed.
Qed.

(** ** [run_action] *)

Lemma load_filtered_cases (w : world) :
  Runner.load_filtered w =
  match files w !! "repos_filtered.json" with
  | None =>
      (Raise (Exn FileNotFoundError
                  "[Errno 2] No such file or directory: 'repos_filtered.json'"), w)
  | Some (Malformed msg) => (Raise (Exn JSONDecodeError msg), w)
  | Some (Document (JObj fields)) =>
      (Return (default (JArr []) (dict_lookup fields "repos")), w)
  | Some (Document j) =>
      (Raise (Exn AttributeError
                  ("'" +:+ type_name j +:+ "' object has no attribute 'get'")), w)
  end.
Proof.
  unfold Runner.load_filtered, bind, read_json, lift.
  destruct (files w !! "repos_filtered.json") as [[msg|j]|]; [done| |done].
  by destruct j.
Qed.

Lemma iterate_raises (v : json) (e : exn) :
  iterate v = Raise e → exn_cls e = TypeError.
Proof. destruct v; simpl; intros H; by simplify_eq. Qed.

Lemma uncommitted_run_cases (repos : json) (w : world) :
  (∃ lines, Uncommitted.run repos w = (Return tt, printed lines w)) ∨
  (∃ e, Uncommitted.run repos w = (Raise e, w) ∧ exn_cls e = TypeError).
Proof.
  destruct (iterate repos) as [items|e|c] eqn:Hit.
  - left. eexists. by apply uncommitted_run_eq.
  - right. exists e. split; [|by eapply iterate_raises].
    unfold Uncommitted.run, bind, lift. by rewrite Hit.
  - by destruct repos.
Qed.

Lemma module_run_cases (action_module : string) (repos : json) (w : world) :
  (∃ lines, Runner.module_run action_module repos w = (Return tt, printed lines w)) ∨
  (∃ e lines, Runner.module_run action_module repos w = (Raise e, printed lines w)).
Proof.
  unfold Runner.module_run. repeat case_decide.
  - destruct (uncommitted_run_cases repos w) as [[l H1]|(e & H1 & _)].
    + left. by exists l.
    + right. exists e, []. by rewrite printed_nil.
  - unfold Placeholder.run, bind, print, lift.
    destruct (iterate repos) as [items|e|c] eqn:Hit.
    + left. rewrite process_all_eq, printed_printed. by eexists.
    + right. by eexists _, _.
    + by destruct repos.
  - right. eexists _, []. unfold raise. by rewrite printed_nil.
Qed.

Lemma run_action_prints (action_module : string) (w : world) :
  ∃ r lines,
    Runner.run_action action_module w = (Return r, printed lines w) ∧
    (r = None ∨ r = Some false).
Proof.
  unfold Runner.run_action, try_except_Exception, bind.
  rewrite load_filtered_cases.
  destruct (files w !! "repos_filtered.json") as [[msg|j]|];
    [|destruct j as [|b|n|items|fields]|];
    try (case_decide as Hc; simpl in Hc; try discriminate Hc;
         unfold print, ret; simpl; eexists _, _; split; [reflexivity|by right]).
  { destruct (module_run_cases action_module
                (default (JArr []) (dict_lookup fields "repos")) w)
      as [[l H1]|(e & l & H1)]; rewrite H1.
    - unfold ret. eexists _, _. split; [reflexivity|by left].
    - case_decide; unfold print, ret; rewrite printed_printed;
        (eexists _, _; split; [reflexivity|by right]). }
  simpl. unfold print, ret. eexists _, _. split; [reflexivity|by right].
Qed.

(** X13. For either action of the dispatcher, [run_action] never raises
    and never exits, whatever repos_filtered.json holds: it returns
    None or False; and the three list files (repos.json,
    repos_exclude.json, repos_filtered.json) hold after the call what
    they held before. *)
Theorem run_action_returns (action_module : string) (w : world) :
  action_module = "action_check_uncommitted.py" ∨
  action_module = "action_placeholder.py" →
  ((Runner.run_action action_module w).1 = Return None ∨
   (Runner.run_action action_module w).1 = Return (Some false)) ∧
  ∀ name, name ∈ ["repos.json"; "repos_exclude.json"; "repos_filtered.json"] →
          files (Runner.run_action action_module w).2 !! name = files w !! name.
Proof.
  intros _.
  destruct (run_action_prints action_module w) as (r & lines & -> & [->| ->]);
    simpl; auto.
Qed.

Lemma run_action_returns_witness :
  ((Runner.run_action "action_check_uncommitted.py" Cases.three_repos).1 = Return None ∨
   (Runner.run_action "action_check_uncommitted.py" Cases.three_repos).1
     = Return (Some false)) ∧
  ∀ name, name ∈ ["repos.json"; "repos_exclude.json"; "repos_filtered.json"] →
          files (Runner.run_action "action_check_uncommitted.py" Cases.three_repos).2
            !! name
          = files Cases.three_repos !! name.
Proof.
  apply (run_action_returns "action_check_uncommitted.py" Cases.three_repos).
  left. reflexivity.
Defined.

(** X14. A filtered list that is no list (null, a boolean, a number under
    "repos"): the TypeError of the action is caught by [run_action],
    which prints it and returns False; the placeholder action has
    printed its heading by then. *)
Theorem run_action_not_iterable (w : world) (v : json) (e : exn) :
  files w !! "repos_filtered.json" = Some (Document (JObj [("repos", v)])) →
  iterate v = Raise e →
  Runner.run_action "action_check_uncommitted.py" w
    = (Return (Some false), printed ["Error running action: " +:+ exn_str e] w) ∧
  Runner.run_action "action_placeholder.py" w
    = (Return (Some false),
       printed ["Running placeholder action...";
                "Error running action: " +:+ exn_str e] w).
Proof.
  intros Hfile Hit. pose proof (iterate_raises v e Hit) as Hcls.
  unfold Runner.run_action, try_except_Exception, bind.
  rewrite load_filtered_cases, Hfile. simpl.
  destruct (decide ("repos" = "repos")); [|done]. simpl.
  unfold Runner.module_run. simpl. split.
  - unfold Uncommitted.run, bind, lift. rewrite Hit.
    rewrite Hcls. simpl. by unfold print, ret.
  - unfold Placeholder.run, bind, print, lift. rewrite Hit, Hcls. simpl.
    unfold print, ret. by rewrite printed_printed.
Qed.

Lemma run_action_not_iterable_witness :
  Runner.run_action "action_check_uncommitted.py" Cases.null_filtered
    = (Return (Some false),
       printed ["Error running action: "
                +:+ exn_str (Exn TypeError "'NoneType' object is not iterable")]
               Cases.null_filtered) ∧
  Runner.run_action "action_placeholder.py" Cases.null_filtered
    = (Return (Some false),
       printed ["Running placeholder action...";
                "Error running action: "
                +:+ exn_str (Exn TypeError "'NoneType' object is not iterable")]
               Cases.null_filtered).
Proof.
  apply (run_action_not_iterable Cases.null_filtered JNull); vm_compute; reflexivity.
Defined.

(** X15. Without repos_filtered.json the two ways of running an action
    part: through the dispatcher, [run_action] prints its message and
    returns False, and the dispatcher ends with status zero; run on its
    own, the action script prints another message and exits with
    status 1. *)
Theorem action_missing_file (w : world) (action_module : string) :
  files w !! "repos_filtered.json" = None →
  Runner.run_action action_module w
    = (Return (Some false),
       printed ["Error: repos_filtered.json not found. Run setup first."] w) ∧
  Uncommitted.script w
    = (Exit 1, printed ["Error: repos_filtered.json not found. Run filter script first."] w) ∧
  Placeholder.script w
    = (Exit 1, printed ["Error: repos_filtered.json not found. Run filter script first."] w).
Proof.
  intros Hfile. split; [|split].
  - unfold Runner.run_action, try_except_Exception, bind.
    by rewrite load_filtered_cases, Hfile.
  - unfold Uncommitted.script. run_py. by rewrite Hfile.
  - unfold Placeholder.script. run_py. by rewrite Hfile.
Qed.

Lemma action_missing_file_witness :
  Runner.run_action "action_check_uncommitted.py" Samples.fresh
    = (Return (Some false),
       printed ["Error: repos_filtered.json not found. Run setup first."] Samples.fresh) ∧
  Uncommitted.script Samples.fresh
    = (Exit 1, printed ["Error: repos_filtered.json not found. Run filter script first."]
                       Samples.fresh) ∧
  Placeholder.script Samples.fresh
    = (Exit 1, printed ["Error: repos_filtered.json not found. Run filter script first."]
                       Samples.fresh).
Proof.
  apply (action_missing_file Samples.fresh "action_check_uncommitted.py").
  vm_compute. reflexivity.
Defined.

(** ** The dispatcher and its scripts *)

(** [run_script] turns the exit status of the child into a boolean and
    never raises itself. *)
Lemma run_script_cases (script_name : string) (body : M unit) (w : world) :
  Runner.script_body script_name = Some body →
  Runner.run_script script_name w =
  if decide (exit_status (body w).1 = 0%Z) then (Return true, (body w).2)
  else (Return false,
        printed ["Error running " +:+ script_name +:+ ": Command '['"
                 +:+ executable w +:+ "', '" +:+ script_name
                 +:+ "']' returned non-zero exit status "
                 +:+ pretty (exit_status (body w).1) +:+ "."] (body w).2).
Proof.
  intros Hbody. unfold Runner.run_script, try_except, bind, Runner.run_child.
  rewrite Hbody. destruct (body w) as [o w']. simpl.
  by destruct (decide (exit_status o = 0%Z)).
Qed.

Lemma run_script_returns (script_name : string) (w : world) :
  ∃ ok w', Runner.run_script script_name w = (Return ok, w').
Proof.
  destruct (Runner.script_body script_name) as [body|] eqn:Hbody.
  - rewrite (run_script_cases _ body w Hbody). case_decide; by eexists _, _.
  - unfold Runner.run_script, try_except, bind, Runner.run_child.
    rewrite Hbody. simpl. by eexists _, _.
Qed.

Ltac step_script :=
  match goal with
  | |- context [Runner.run_script ?s ?w0] =>
      let ok := fresh "ok" in
      let w1 := fresh "w" in
      destruct (run_script_returns s w0) as (ok & w1 & ->); simpl
  | |- context [Runner.run_action ?a ?w0] =>
      let r := fresh "r" in
      let l := fresh "l" in
      destruct (run_action_prints a w0) as (r & l & -> & _); simpl
  end.

Lemma main_known_returns (w : world) (argv0 command : string) (rest : list string) :
  command ∈ Report.commands →
  (Runner.main (argv0 :: command :: rest) w).1 = Return tt.
Proof.
  intros Hcmd. unfold Report.commands in Hcmd.
  repeat (apply elem_of_cons in Hcmd as [->|Hcmd]);
    [..|by apply elem_of_nil in Hcmd];
    unfold Runner.main, bind, print; simpl; try step_script; done.
Qed.

(** X16. The dispatcher ends with a status other than zero in one case
    only: a command was given and it is none of the five.  Whatever a
    script or an action does (a failing child process, an unreadable
    list, a query that raises), a known command ends with status
    zero. *)
Theorem main_exit_code (argv : list string) (w : world) :
  Runner.exit_code argv w ≠ 0%Z ↔
  ∃ argv0 command rest, argv = argv0 :: command :: rest ∧ command ∉ Report.commands.
Proof.
  unfold Runner.exit_code. split.
  - intros Hne. destruct argv as [|argv0 [|command rest]].
    + exfalso. by apply Hne.
    + exfalso. by apply Hne.
    + exists argv0, command, rest. split; [done|]. intros Hin.
      apply Hne. by rewrite (main_known_returns w argv0 command rest Hin).
  - intros (argv0 & command & rest & -> & Hcmd). unfold Report.commands in Hcmd.
    repeat (apply not_elem_of_cons in Hcmd as [? Hcmd]).
    unfold Runner.main. by repeat (case_decide; [done|]).
Qed.

Lemma filter_main_malformed (w : world) (msg : string) :
  files w !! "repos.json" = Some (Malformed msg) →
  Filter.main w = (Raise (Exn JSONDecodeError msg), w).
Proof.
  intros H. unfold Filter.main, Filter.filter_repos, bind.
  by rewrite load_repos_cases, H.
Qed.

(** X17. A filter script that fails does not fail the dispatcher: with a
    repos.json that is not JSON, [run.py filter] prints the error of
    the child process, leaves the world as it was otherwise, and still
    ends with status zero.  The error line is given for an interpreter
    path of printable ASCII characters without quote or backslash,
    which Python shows between single quotes. *)
Theorem main_filter_failure (w : world) (argv0 msg : string) (rest : list string) :
  files w !! "repos.json" = Some (Malformed msg) →
  Porcelain.plain (executable w) = true →
  Runner.main (argv0 :: "filter" :: rest) w =
  (Return tt,
   printed ["=== Filtering repos ===";
            "Error running 2_filter_repos.py: Command '['" +:+ executable w
            +:+ "', '2_filter_repos.py']' returned non-zero exit status 1."] w) ∧
  Runner.exit_code (argv0 :: "filter" :: rest) w = 0%Z.
Proof.
  intros H _.
  assert (Hmain : Runner.main (argv0 :: "filter" :: rest) w =
    (Return tt,
     printed ["=== Filtering repos ===";
              "Error running 2_filter_repos.py: Command '['" +:+ executable w
              +:+ "', '2_filter_repos.py']' returned non-zero exit status 1."] w)).
  { unfold Runner.main, bind, print. simpl.
    rewrite (run_script_cases "2_filter_repos.py" Filter.main) by done.
    rewrite (filter_main_malformed (printed ["=== Filtering repos ==="] w) msg) by done.
    simpl. unfold ret. by rewrite printed_printed. }
  split; [done|]. unfold Runner.exit_code. by rewrite Hmain.
Qed.

Lemma main_filter_failure_witness :
  Runner.main ["run.py"; "filter"] Cases.broken_main =
  (Return tt,
   printed ["=== Filtering repos ===";
            "Error running 2_filter_repos.py: Command '['"
            +:+ executable Cases.broken_main
            +:+ "', '2_filter_repos.py']' returned non-zero exit status 1."]
           Cases.broken_main) ∧
  Runner.exit_code ["run.py"; "filter"] Cases.broken_main = 0%Z.
Proof.
  apply (main_filter_failure Cases.broken_main "run.py"
           "Expecting value: line 1 column 1 (char 0)" []);
    vm_compute; reflexivity.
Defined.

(** X18. [run.py setup] from any world: the scanner runs, then the filter,
    the status is zero, and the working set it leaves in
    repos_filtered.json is the scanned list restricted to the paths
    that end with "DSPex"; a scanned repository whose path does not
    end with "DSPex" is in repos_exclude.json and not in the working
    set. *)
Theorem setup_working_set (w : world) (argv0 : string) (rest : list string) :
  let w' := (Runner.main (argv0 :: "setup" :: rest) w).2 in
  ∃ repos,
    Scan.scan_repos w = (Return repos, w) ∧
    Runner.exit_code (argv0 :: "setup" :: rest) w = 0%Z ∧
    files w' !! "repos.json" = Some (Document (JObj [("repos", JArr repos)])) ∧
    files w' !! "repos_exclude.json"
      = Some (Document (JObj [("repos", JArr (Scan.excluded repos))])) ∧
    files w' !! "repos_filtered.json"
      = Some (Document (JObj [("repos",
                JArr (filter (λ r, endswith r "DSPex" = true) repos))])).
Proof.
  set (repos := sort (Scan.scan_items (parent_dir w) (map_to_list (siblings w)))).
  assert (Hmain :
    (Runner.main (argv0 :: "setup" :: rest) w).1 = Return tt ∧
    files (Runner.main (argv0 :: "setup" :: rest) w).2 =
    <["repos_filtered.json" :=
        Document (JObj [("repos",
          JArr (filter (λ r, r ∉ Scan.excluded repos) repos))])]>
      (<["repos_exclude.json" :=
           Document (JObj [("repos", JArr (Scan.excluded repos))])]>
         (<["repos.json" := Document (JObj [("repos", JArr repos)])]>
            (files w)))).
  { unfold Runner.main, bind, print. simpl. fold repos.
    rewrite (run_script_cases "2_filter_repos.py" Filter.main) by done.
    match goal with
    | |- context [Filter.main ?w0] =>
        assert (Hf : Filter.filter_repos w0
                     = (Return (filter (λ r, r ∉ Scan.excluded repos) repos), w0))
    end.
    { apply filter_repos_lists; simpl.
      - rewrite lookup_insert_ne by done. by rewrite lookup_insert_eq.
      - by rewrite lookup_insert_eq. }
    by rewrite (filter_main_eq _ _ _ Hf). }
  destruct Hmain as [Hret Hfiles].
  assert (Heq : filter (λ r, r ∉ Scan.excluded repos) repos
                = filter (λ r, endswith r "DSPex" = true) repos).
  { apply filter_ext_elem_of. intros x Hx. by apply not_in_excluded. }
  exists repos. cbv zeta. unfold Runner.exit_code. rewrite Hret, Hfiles.
  split; [done|]. split; [done|]. split; [|split].
  - rewrite !lookup_insert_ne by done. by rewrite lookup_insert_eq.
  - rewrite lookup_insert_ne by done. by rewrite lookup_insert_eq.
  - by rewrite lookup_insert_eq, Heq.
Qed.
